(** * Creating spatial data from GeoNames dumps: the notebook pipeline

    Shallow embedding of [dask_creating_spatial_data.ipynb].  The notebook
    is a chain of library calls,

      dd.read_csv  ->  dd.concat  ->  boolean-mask selection
                   ->  dg.points_from_xy / column assignment
                   ->  dg.from_dask_dataframe(..).compute()  ->  to_file

    and each definition below embeds one of these calls as the notebook
    makes it (same arguments, same defaults).  A dask dataframe is a list
    of partitions, a partition a list of rows; [compute] concatenates the
    partitions in order.  Lazy evaluation is collapsed: an exception that
    dask would raise when the graph is computed is the [Raise] result of
    the stage that causes it; when a run has several defects the model
    reports the first one in source order.  The row index of the frames is left out:
    the only place the notebook depends on it is the assignment of the
    geometry column, whose right-hand side is built with the index of the
    very partition it is assigned to, so that the assignment is positional.

    Text fields are taken after tokenisation (a source line is the list of
    its tab-separated fields); quoting is outside the model. *)

From Stdlib Require Import ZArith Ascii String List Bool Lia Permutation.
From Stdlib Require Import Floats.SpecFloat.
From stdpp Require Import base option list strings gmap.

Open Scope string_scope.
Open Scope list_scope.
Open Scope nat_scope.

(** ** Exceptions and results *)

(** The Python exception classes the modelled calls raise. *)
Inductive exn : Type :=
  | FileNotFoundError   (* dd.read_csv on a path that does not exist *)
  | ParserError         (* pandas tokenizer: "Expected n fields, saw m" *)
  | ValueError.         (* a field or cell cannot be converted; dd.read_csv
                           on a file of no byte *)

Inductive result (A : Type) : Type :=
  | Ok (a : A)
  | Raise (e : exn).
Arguments Ok {A} a.
Arguments Raise {A} e.

#[export] Instance result_ret : MRet result := fun A a => Ok a.
#[export] Instance result_bind : MBind result := fun A B f m =>
  match m with
  | Ok a => f a
  | Raise e => Raise e
  end.
#[export] Instance result_fmap : FMap result := fun A B f m =>
  match m with
  | Ok a => Ok (f a)
  | Raise e => Raise e
  end.

Definition is_ok {A} (m : result A) : bool :=
  match m with Ok _ => true | Raise _ => false end.
Definition is_error {A} (m : result A) : bool := negb (is_ok m).

(** Sequencing a list of fallible steps, left to right. *)
Fixpoint traverse {A B} (f : A -> result B) (l : list A) : result (list B) :=
  match l with
  | [] => Ok []
  | x :: l' => y ← f x; ys ← traverse f l'; Ok (y :: ys)
  end.

(** ** Cells, rows and the declared schema *)

(** binary64 values, as IEEE 754 data. *)
Definition float64 := spec_float.
Definition NaN : float64 := S754_nan.
Definition float_of_Z (z : Z) : float64 := binary_normalize 53 1024 z 0 false.

(** A cell of a pandas column is a dynamically typed Python value.  A
    missing value is the float NaN, also in an [object] column. *)
Inductive cell : Type :=
  | Int (z : Z)
  | Float (f : float64)
  | Str (s : string).

#[export] Instance spec_float_eq_dec : EqDecision spec_float.
Proof. solve_decision. Defined.
#[export] Instance cell_eq_dec : EqDecision cell.
Proof. solve_decision. Defined.

Definition is_float (c : cell) : bool :=
  match c with Float _ => true | _ => false end.

(** [column_names], in file order. *)
Definition column_names : list string :=
  [ "geonameid"; "name"; "asciiname"; "alternatenames";
    "latitude"; "longitude"; "feature class"; "feature code";
    "country code"; "cc2"; "admin1 code"; "admin2 code";
    "admin3 code"; "admin4 code"; "population"; "elevation";
    "dem"; "timezone"; "modification date" ].

(** The Python types used as dtypes: [int] is int64, [float] is float64. *)
Inductive dtype : Type := dt_int | dt_float | dt_object.

(** [dtypes], a dict from column name to dtype. *)
Definition dtypes : gmap string dtype :=
  list_to_map
    [ ("geonameid", dt_int); ("name", dt_object); ("asciiname", dt_object);
      ("alternatenames", dt_object);
      ("latitude", dt_float); ("longitude", dt_float);
      ("feature class", dt_object); ("feature code", dt_object);
      ("country code", dt_object); ("cc2", dt_object);
      ("admin1 code", dt_object); ("admin2 code", dt_object);
      ("admin3 code", dt_object); ("admin4 code", dt_object);
      ("population", dt_int); ("elevation", dt_float);
      ("dem", dt_int); ("timezone", dt_object);
      ("modification date", dt_object) ].

(** One row of a frame with the columns of [column_names]. *)
Record Row : Type := mkRow {
  geonameid : cell; name : cell; asciiname : cell; alternatenames : cell;
  latitude : cell; longitude : cell; feature_class : cell; feature_code : cell;
  country_code : cell; cc2 : cell; admin1_code : cell; admin2_code : cell;
  admin3_code : cell; admin4_code : cell; population : cell; elevation : cell;
  dem : cell; timezone : cell; modification_date : cell
}.

#[export] Instance Row_eq_dec : EqDecision Row.
Proof. solve_decision. Defined.

(** The cells of a row, in column order, and back. *)
Definition cells_of_row (r : Row) : list cell :=
  [ geonameid r; name r; asciiname r; alternatenames r; latitude r;
    longitude r; feature_class r; feature_code r; country_code r; cc2 r;
    admin1_code r; admin2_code r; admin3_code r; admin4_code r;
    population r; elevation r; dem r; timezone r; modification_date r ].

Definition row_of_cells (cs : list cell) : option Row :=
  match cs with
  | [c0; c1; c2; c3; c4; c5; c6; c7; c8; c9; c10; c11; c12; c13; c14; c15;
     c16; c17; c18] =>
      Some (mkRow c0 c1 c2 c3 c4 c5 c6 c7 c8 c9 c10 c11 c12 c13 c14 c15
                  c16 c17 c18)
  | _ => None
  end.

(** A partition of a frame, and a dask dataframe. *)
Abbreviation Partition := (list Row).
Abbreviation DaskDataFrame := (list (list Row)).

(** [.compute()]: the partitions, concatenated in order. *)
Definition compute {A} (ddf : list (list A)) : list A := concat ddf.

(** ** Text-to-number converters

    The three string converters the libraries call are taken as given:
    pandas' tokenizer converters for int64 and double fields, and Python's
    [float()] on a [str], which numpy applies to the elements of an object
    column.  [None] means the converter rejects the text.  Nothing below
    depends on which texts they accept or on the values they return. *)
Class Converters : Type := {
  str_to_int64 : string -> option Z;
  str_to_double : string -> option float64;
  py_float : string -> option float64
}.

(** Plain decimal literals, a concrete instance used for the worked
    examples: an optional minus sign, digits, and for a double an optional
    fraction.  A double literal is read as [n / 10^k], which is correctly
    rounded when both [n] and [10^k] are exact in binary64; longer
    literals are left out. *)
Module Decimal.

Definition digit (c : ascii) : option N :=
  let n := N_of_ascii c in
  if ((48 <=? n) && (n <=? 57))%N then Some (n - 48)%N else None.

Fixpoint digits (s : string) (acc : N) : option N :=
  match s with
  | EmptyString => Some acc
  | String c s' =>
      match digit c with
      | Some d => digits s' (10 * acc + d)%N
      | None => None
      end
  end.

Definition natural (s : string) : option N :=
  match s with
  | EmptyString => None
  | _ => digits s 0%N
  end.

Definition signed {A} (body : string -> option A) (neg : A -> A)
    (s : string) : option A :=
  match s with
  | String "-"%char s' => neg <$> body s'
  | _ => body s
  end.

Definition to_int64 : string -> option Z :=
  signed (fun s => n ← natural s;
                   if (Z.of_N n <? 2 ^ 63)%Z then Some (Z.of_N n) else None)
         Z.opp.

Fixpoint split_dot (s : string) : string * option string :=
  match s with
  | EmptyString => (EmptyString, None)
  | String "."%char s' => (EmptyString, Some s')
  | String c s' => let '(a, b) := split_dot s' in (String c a, b)
  end.

Definition unsigned_double (s : string) : option float64 :=
  let '(ip, fp) := split_dot s in
  let fp := default EmptyString fp in
  n ← natural (ip +:+ fp);
  let k := String.length fp in
  if ((n <? 2 ^ 53)%N && (k <=? 22)%nat)%bool
  then Some (SFdiv 53 1024 (float_of_Z (Z.of_N n))
                           (float_of_Z (10 ^ Z.of_nat k)))
  else None.

Definition to_double : string -> option float64 :=
  signed unsigned_double SFopp.

Definition converters : Converters :=
  {| str_to_int64 := to_int64; str_to_double := to_double;
     py_float := to_double |}.

End Decimal.

(** ** Stage 1: the record loader, [dd.read_csv] and [dd.concat] *)

(** The strings pandas reads as a missing value (its default
    [na_values], [keep_default_na] and [na_filter] being left alone). *)
Definition STR_NA_VALUES : list string :=
  [ ""; "#N/A"; "#N/A N/A"; "#NA"; "-1.#IND"; "-1.#QNAN"; "-NaN"; "-nan";
    "1.#IND"; "1.#QNAN"; "<NA>"; "N/A"; "NA"; "NULL"; "NaN"; "None";
    "n/a"; "nan"; "null" ].

Definition is_na (word : string) : bool :=
  existsb (String.eqb word) STR_NA_VALUES.
Arguments is_na : simpl never.

(** A source line is the list of its tab-separated fields ([sep = '\t']).
    dask cuts a file into blocks of whole lines and hands every block to
    pandas on its own; a source file is given as the list of its blocks,
    its lines being their concatenation. *)
Abbreviation Line := (list string).
Abbreviation Block := (list (list string)).
Abbreviation SourceFile := (list (list (list string))).
Definition file_lines (f : SourceFile) : list Line := concat f.

(** [skip_blank_lines] is left at [True]: a line without any character,
    and a line of spaces only, is no line of the table.  The separator
    being the tab, such a line is a single field made of spaces; a line
    with a tab in it has two fields and is a line of the table. *)
Fixpoint only_spaces (s : string) : bool :=
  match s with
  | EmptyString => true
  | String c s' => Ascii.eqb c " " && only_spaces s'
  end.

Definition blank (l : Line) : Prop :=
  match l with
  | [] => True
  | [field] => only_spaces field = true
  | _ :: _ :: _ => False
  end.

#[export] Instance blank_dec l : Decision (blank l).
Proof. destruct l as [|? [|? ?]]; cbn [blank]; apply _. Defined.

Definition skip_blank_lines (b : Block) : Block :=
  filter (λ l, ¬ blank l) b.

(** The local files of the notebook, by path. *)
Definition data_folder : string := "data".
Definition output_folder : string := "output".
Definition path_join (a b : string) : string := a +:+ "/" +:+ b.
Definition countries : list string := ["US"; "MX"; "CA"].
Definition country_txt (country : string) : string :=
  path_join data_folder (country +:+ ".txt").

(** ** Setup and data download

    The cells before the pipeline make the two folders and fetch the
    archives.  The local file system is a map from paths (written without
    a trailing separator) to entries, directories and regular files; the
    remote side is a partial function from URLs to responses, a request
    failing, delivering the whole content, or breaking off after a part
    of it.  A cell is a command on the file system: it gives the file
    system it leaves and the exception that ended it, if any.

    Permissions and symbolic links are not entries of the map.  What
    they do to [os.mkdir] is a refusal by the operating system, given to
    the folders cell as a predicate on paths; for the write of a
    downloaded file they are left out, and the properties of the download
    are stated for runs that raise nothing, or hold whatever is raised. *)

(** [posixpath]: the separator, [basename], [dirname] and [join]. *)
Definition is_sep (c : ascii) : bool := Ascii.eqb c "/".

Fixpoint contains_sep (p : string) : bool :=
  match p with
  | EmptyString => false
  | String c p' => is_sep c || contains_sep p'
  end.

Definition starts_with_sep (p : string) : bool :=
  match p with
  | EmptyString => false
  | String c _ => is_sep c
  end.

Fixpoint ends_with_sep (p : string) : bool :=
  match p with
  | EmptyString => false
  | String c p' =>
      match p' with
      | EmptyString => is_sep c
      | String _ _ => ends_with_sep p'
      end
  end.

(** [p[i:]] and [p[:i]] for [i = p.rfind('/') + 1]. *)
Fixpoint os_path_basename (p : string) : string :=
  match p with
  | EmptyString => EmptyString
  | String c p' =>
      if is_sep c || contains_sep p' then os_path_basename p' else p
  end.

Fixpoint os_path_head (p : string) : string :=
  match p with
  | EmptyString => EmptyString
  | String c p' =>
      if is_sep c || contains_sep p' then String c (os_path_head p')
      else EmptyString
  end.

(** [p.rstrip('/')]. *)
Fixpoint rstrip_sep (p : string) : string :=
  match p with
  | EmptyString => EmptyString
  | String c p' =>
      match rstrip_sep p' with
      | EmptyString => if is_sep c then EmptyString else String c EmptyString
      | rest => String c rest
      end
  end.

(** [os.path.dirname]: the head without its trailing separators, unless
    it is made of separators only. *)
Definition os_path_dirname (p : string) : string :=
  let head := os_path_head p in
  match rstrip_sep head with
  | EmptyString => head
  | stripped => stripped
  end.

(** [os.path.join(a, b)]: an absolute [b] replaces [a]. *)
Definition os_path_join (a b : string) : string :=
  if starts_with_sep b then b
  else if String.eqb a "" || ends_with_sep a then a +:+ b
  else a +:+ "/" +:+ b.

Definition download_url : string :=
  "https://download.geonames.org/export/dump/".

Module Setup.

Inductive node : Type :=
  | Dir
  | File (content : string).

(** [OSError] stands for its subclasses raised by the file system
    (FileExistsError, FileNotFoundError, NotADirectoryError,
    IsADirectoryError, PermissionError); [URLError] is the failure of a
    request, ContentTooShortError, its subclass, included. *)
Inductive error : Type := OSError | URLError.

(** What a request that is answered delivers: the whole content, or the
    part received when the transfer breaks off. *)
Inductive response : Type :=
  | Whole (content : string)
  | Short (received : string).

Abbreviation FileSystem := (gmap string node).
Abbreviation Network := (string → option response).
Abbreviation Cmd := (gmap string node → gmap string node * option error).

Definition seq (c1 c2 : Cmd) : Cmd := λ fs,
  match c1 fs with
  | (fs', None) => c2 fs'
  | (fs', Some e) => (fs', Some e)
  end.

(** A [for] loop: the first exception ends it. *)
Fixpoint for_each {A} (body : A → Cmd) (l : list A) : Cmd :=
  match l with
  | [] => λ fs, (fs, None)
  | x :: l' => seq (body x) (for_each body l')
  end.

(** What a path names: a path with a trailing separator names a
    directory or nothing. *)
Definition entry (fs : FileSystem) (p : string) : option node :=
  if ends_with_sep p then
    match fs !! rstrip_sep p with
    | Some Dir => Some Dir
    | _ => None
    end
  else fs !! p.

Definition os_path_exists (fs : FileSystem) (p : string) : bool :=
  match entry fs p with
  | Some _ => true
  | None => false
  end.

(** The directory a new entry goes into has to be there; the empty
    [dirname] is the working directory. *)
Definition parent_is_dir (fs : FileSystem) (p : string) : bool :=
  let parent := os_path_dirname p in
  String.eqb parent ""
  || match entry fs parent with
     | Some Dir => true
     | _ => false
     end.

(** [os.mkdir(p)].  [refused p]: the operating system refuses to make
    [p] for a reason the entries do not show (no permission to write in
    the parent directory, a dangling link at [p]). *)
Definition os_mkdir (refused : string → bool) (p : string) : Cmd := λ fs,
  if os_path_exists fs p then (fs, Some OSError)
  else if refused p then (fs, Some OSError)
  else if parent_is_dir fs p then (<[ p := Dir ]> fs, None)
  else (fs, Some OSError).

(** [if not os.path.exists(p): os.mkdir(p)], and the cell that makes the
    two folders. *)
Definition ensure_folder (refused : string → bool) (p : string) : Cmd := λ fs,
  if os_path_exists fs p then (fs, None) else os_mkdir refused p fs.

Definition make_folders (refused : string → bool) : Cmd :=
  seq (ensure_folder refused data_folder) (ensure_folder refused output_folder).

(** [open(filename, 'wb')] followed by the write of the content. *)
Definition open_write (filename content : string) : Cmd := λ fs,
  if ends_with_sep filename then (fs, Some OSError)
  else match entry fs filename with
       | Some Dir => (fs, Some OSError)
       | _ =>
           if parent_is_dir fs filename
           then (<[ filename := File content ]> fs, None)
           else (fs, Some OSError)
       end.

(** [urlretrieve(url, filename)]: the request comes first, then the
    file is opened and what is received is written to it; a transfer
    that breaks off leaves the part received and raises. *)
Definition urlretrieve (net : Network) (url filename : string) : Cmd := λ fs,
  match net url with
  | None => (fs, Some URLError)
  | Some (Whole content) => open_write filename content fs
  | Some (Short received) =>
      match open_write filename received fs with
      | (fs', None) => (fs', Some URLError)
      | (fs', Some e) => (fs', Some e)
      end
  end.

(** [download(url)]. *)
Definition download (net : Network) (url : string) : Cmd := λ fs,
  let filename := os_path_join data_folder (os_path_basename url) in
  if os_path_exists fs filename then (fs, None)
  else urlretrieve net url filename fs.

(** The loop over the countries, and the path under which the next
    cell opens the archive of a country. *)
Definition archive_url (country : string) : string :=
  download_url +:+ country +:+ ".zip".

Definition download_countries (net : Network) (cs : list string) : Cmd :=
  for_each (λ country, download net (archive_url country)) cs.

Definition zip_file_path (country : string) : string :=
  os_path_join data_folder (country +:+ ".zip").

End Setup.

Section Loader.
Context `{!Converters}.

(** Conversion of one field under a declared dtype.  An int column
    has no representation for a missing value ("Integer column has NA
    values"); a float column reads it as NaN; an object column keeps
    the text, or NaN for a missing value. *)
Definition convert_with_dtype (dt : dtype) (word : string) : result cell :=
  match dt with
  | dt_int =>
      if is_na word then Raise ValueError
      else match str_to_int64 word with
           | Some z => Ok (Int z)
           | None => Raise ValueError
           end
  | dt_float =>
      if is_na word then Ok (Float NaN)
      else match str_to_double word with
           | Some f => Ok (Float f)
           | None => Raise ValueError
           end
  | dt_object => Ok (if is_na word then Float NaN else Str word)
  end.

(** [dtype=dtypes]: the dtype is looked up by column name.  pandas
    infers the type of a column that has no entry from the whole
    column; every name of [column_names] has one
    ([dtypes_cover_column_names]), and the model reads such a column as
    [object]. *)
Definition convert_tokens (name word : string) : result cell :=
  convert_with_dtype (default dt_object (dtypes !! name)) word.

(** With [names] given and no header line, the width of the table is
    the number of names, or the number of fields of the first line of
    the parsed text (blank lines skipped) when that is larger.  Surplus
    columns are leading columns: as the pandas documentation has it, "if
    a file has one more column of data than the number of column names,
    the first column will be used as the DataFrame's row names"; the
    names go to the columns after the leading ones. *)
Definition table_width (b : Block) : nat :=
  match b with
  | [] => length column_names
  | first :: _ => length first `max` length column_names
  end.

Definition leading_cols (b : Block) : nat :=
  table_width b - length column_names.

(** End of a line in the tokenizer: a line with more fields than
    expected is an error ([on_bad_lines] is left at ['error']), a line
    with fewer is filled up with empty fields. *)
Definition end_line (expected : nat) (fields : Line) : result Line :=
  if decide (expected < length fields) then Raise ParserError
  else Ok (fields ++ replicate (expected - length fields) "").

(** Conversion of a tokenized line: the leading columns are set aside,
    the others are converted under their names.  A line filled up to the
    table width has one field per name, so that the cells always make a
    row. *)
Definition convert_line (lead : nat) (words : Line) : result Row :=
  cs ← traverse (fun nw => convert_tokens nw.1 nw.2)
                (zip column_names (drop lead words));
  match row_of_cells cs with
  | Some r => Ok r
  | None => Raise ParserError
  end.

(** [pandas.read_csv(block, sep='\t', names=column_names, dtype=dtypes)]:
    the lines are tokenized, then converted. *)
Definition pandas_read_csv (b : Block) : result Partition :=
  let rows := skip_blank_lines b in
  lines ← traverse (end_line (table_width rows)) rows;
  traverse (convert_line (leading_cols rows)) lines.

(** [dd.read_csv(path, sep='\t', names=column_names, dtype=dtypes)]:
    one partition per block.  A file of no byte has no block, and there
    is no frame without a partition: the call raises ValueError. *)
Definition dd_read_csv (fs : gmap string SourceFile) (path : string)
    : result DaskDataFrame :=
  match fs !! path with
  | None => Raise FileNotFoundError
  | Some [] => Raise ValueError
  | Some blocks => traverse pandas_read_csv blocks
  end.

(** The loop that fills [dd_list], over a list of country codes. *)
Definition dd_list (fs : gmap string SourceFile) (cs : list string)
    : result (list DaskDataFrame) :=
  traverse (fun country => dd_read_csv fs (country_txt country)) cs.

(** [dd.concat(dd_list)]: the partitions of the frames, stacked in the
    order of the list. *)
Definition dd_concat (dfs : list DaskDataFrame) : DaskDataFrame :=
  concat dfs.

(** The record loader over a list of countries; [merged_dd] is the
    loader at the notebook's [countries]. *)
Definition load (fs : gmap string SourceFile) (cs : list string)
    : result DaskDataFrame :=
  dd_concat <$> dd_list fs cs.

Definition merged_dd (fs : gmap string SourceFile) : result DaskDataFrame :=
  load fs countries.

End Loader.

(** ** Stage 2: the row filter, [merged_dd[merged_dd['feature class'] == 'T']] *)

(** [cell == v] for a string [v]: NaN and numbers are not equal to it. *)
Definition eq_str (c : cell) (v : string) : bool :=
  match c with
  | Str s => String.eqb s v
  | _ => false
  end.

(** The boolean series [df['feature class'] == v] of one partition. *)
Definition feature_class_mask (v : string) (part : Partition) : list bool :=
  (fun r => eq_str (feature_class r) v) <$> part.

(** [df[mask]]: the rows whose mask entry is [True], in frame order. *)
Definition getitem_mask {A} (part : list A) (mask : list bool) : list A :=
  fst <$> List.filter snd (zip part mask).

(** The row filter on a dask dataframe, partition by partition. *)
Definition row_filter (v : string) (ddf : DaskDataFrame) : DaskDataFrame :=
  (fun part => getitem_mask part (feature_class_mask v part)) <$> ddf.

Definition mountain_dd (merged : DaskDataFrame) : DaskDataFrame :=
  row_filter "T" merged.

(** ** Stage 3: the geometry builder,
       [mountain_dd['geometry'] = dg.points_from_xy(mountain_dd, 'longitude', 'latitude', crs = 'EPSG:4326')] *)

Record Point : Type := mkPoint { px : float64; py : float64 }.

(** A row with its geometry column. *)
Record SpatialRecord : Type := mkSpatial { attrs : Row; geometry : Point }.

(** A partitioned GeoSeries: the CRS is carried by the series, not by
    its points. *)
Record GeoSeries : Type := mkGeoSeries {
  series_crs : string;
  series_parts : list (list Point)
}.

Definition crs_4326 : string := "EPSG:4326".

(** A dask frame with its geometry column, and the in-memory
    GeoDataFrame; the CRS of the frame is the CRS of its geometry
    column. *)
Record DaskGeoDataFrame : Type := mkDaskGeoDataFrame {
  dask_crs : string;
  dask_parts : list (list SpatialRecord)
}.

Record GeoDataFrame : Type := mkGeoDataFrame {
  crs : string;
  features : list SpatialRecord
}.

Section GeometryBuilder.
Context `{!Converters}.

(** [np.asarray(column, dtype='float64')] on one element. *)
Definition to_float64 (c : cell) : result float64 :=
  match c with
  | Float f => Ok f
  | Int z => Ok (float_of_Z z)
  | Str s =>
      match py_float s with
      | Some f => Ok f
      | None => Raise ValueError
      end
  end.

(** [geopandas.points_from_xy(x, y)]: both columns are converted to
    float64 arrays, then paired into points.  There is no check of the
    values themselves. *)
Definition geopandas_points_from_xy (xs ys : list cell) : result (list Point) :=
  x ← traverse to_float64 xs;
  y ← traverse to_float64 ys;
  Ok (zip_with mkPoint x y).

(** [dg.points_from_xy(ddf, x, y, crs=crs)], the columns being given by
    their accessors. *)
Definition points_from_xy (ddf : DaskDataFrame) (x y : Row -> cell)
    (crs : string) : result GeoSeries :=
  mkGeoSeries crs <$>
    traverse (fun data => geopandas_points_from_xy (x <$> data) (y <$> data)) ddf.

(** [ddf['geometry'] = series]: partition by partition, row by row. *)
Definition setitem_geometry (ddf : DaskDataFrame) (series : GeoSeries)
    : DaskGeoDataFrame :=
  mkDaskGeoDataFrame (series_crs series)
    (zip_with (zip_with mkSpatial) ddf (series_parts series)).

(** [dg.from_dask_dataframe(ddf).compute()]: the column named geometry
    is the geometry of the frame; the partitions are concatenated. *)
Definition from_dask_dataframe_compute (ddf : DaskGeoDataFrame) : GeoDataFrame :=
  mkGeoDataFrame (dask_crs ddf) (compute (dask_parts ddf)).

(** The geometry builder: the assignment of the geometry column, then
    the computation of the GeoDataFrame [mountain_df]. *)
Definition geometry_builder (filtered : DaskDataFrame) : result GeoDataFrame :=
  series ← points_from_xy filtered longitude latitude crs_4326;
  Ok (from_dask_dataframe_compute (setitem_geometry filtered series)).

End GeometryBuilder.

(** ** Stage 4: the spatial writer,
       [mountain_df.to_file(driver='GPKG', filename = output_path, layer = 'mountains', encoding='utf-8')] *)

Record Layer : Type := mkLayer {
  layer_crs : string;
  layer_encoding : string;
  layer_features : list SpatialRecord
}.

(** The output files by path; a GeoPackage holds its layers by name. *)
Abbreviation Disk := (gmap string (gmap string Layer)).

(** [to_file] with [mode] left at its default ['w']: the layer of the
    given name is created, or replaced when the container has one.  This
    is the write that goes through; what the driver and the file system
    can refuse (no output folder, a path that is no GeoPackage) has no
    place in [Disk], and nothing below says that a write cannot fail. *)
Definition to_file (gdf : GeoDataFrame) (filename layer encoding : string)
    (disk : Disk) : Disk :=
  <[ filename :=
       <[ layer := mkLayer (crs gdf) encoding (features gdf) ]>
         (default ∅ (disk !! filename)) ]> disk.

Definition output_filename : string := "mountains.gpkg".
Definition output_path : string := path_join output_folder output_filename.

(** ** The whole notebook *)

Section Notebook.
Context `{!Converters}.

(** From the loaded frame to the written file, for a filter value. *)
Definition pipeline (v : string) (fs : gmap string SourceFile)
    (cs : list string) (disk : Disk) : result Disk :=
  merged ← load fs cs;
  gdf ← geometry_builder (row_filter v merged);
  Ok (to_file gdf output_path "mountains" "utf-8" disk).

(** The cells of the notebook, in order. *)
Definition notebook (fs : gmap string SourceFile) (disk : Disk) : result Disk :=
  merged ← merged_dd fs;
  mountain_df ← geometry_builder (mountain_dd merged);
  Ok (to_file mountain_df output_path "mountains" "utf-8" disk).

End Notebook.

(** ** Vocabulary of the properties *)

(** The row has feature class [v]. *)
Definition has_class (v : string) (r : Row) : Prop := feature_class r = Str v.

#[export] Instance has_class_dec v r : Decision (has_class v r).
Proof. unfold has_class. apply _. Defined.

(** A line with at most as many fields as the schema has columns, and a
    file all of whose lines are such. *)
Definition within_schema (l : Line) : Prop :=
  length l ≤ length column_names.

Definition file_within_schema (f : SourceFile) : Prop :=
  Forall within_schema (file_lines f).

#[export] Instance within_schema_dec l : Decision (within_schema l).
Proof. unfold within_schema. apply _. Defined.

#[export] Instance file_within_schema_dec f : Decision (file_within_schema f).
Proof. unfold file_within_schema. apply _. Defined.

(** A line filled up with empty fields to the width of the schema. *)
Definition pad (l : Line) : Line :=
  l ++ replicate (length column_names - length l) "".


(** A float that is a number. *)
Definition is_number (f : float64) : bool :=
  match f with S754_nan => false | _ => true end.

(** The coordinate ranges of the specification: latitude in [-90, 90],
    longitude in [-180, 180], both present and numeric. *)
Definition in_range (lo hi : Z) (f : float64) : bool :=
  SFleb (float_of_Z lo) f && SFleb f (float_of_Z hi).

Definition valid_coordinates (r : Row) : bool :=
  match latitude r, longitude r with
  | Float la, Float lo => in_range (-90) 90 la && in_range (-180) 180 lo
  | _, _ => false
  end.

(** The point of one row, and the spatial record it becomes. *)
Definition point_of_row `{!Converters} (r : Row) : result Point :=
  x ← to_float64 (longitude r);
  y ← to_float64 (latitude r);
  Ok (mkPoint x y).

Definition spatial_record `{!Converters} (r : Row) : result SpatialRecord :=
  mkSpatial r <$> point_of_row r.

(** Reading one line within the schema, and the lines of a file (or of
    no file at all), whatever its blocks are. *)
Definition read_line `{!Converters} (l : Line) : result Row :=
  convert_line 0 (pad l).


(** A file as dask cuts it: no block is without a line. *)
Definition well_cut (f : SourceFile) : Prop := Forall (λ b, b ≠ []) f.

#[export] Instance well_cut_dec f : Decision (well_cut f).
Proof. unfold well_cut. apply _. Defined.

(** A file without a quote character (code 34).  The fields of a line are the
    texts between its tabs, and the lines of a block the texts between
    its line ends, only where nothing is quoted. *)
Fixpoint has_quote (s : string) : bool :=
  match s with
  | EmptyString => false
  | String c s' => Ascii.eqb c "034" || has_quote s'
  end.

Definition file_unquoted (f : SourceFile) : Prop :=
  Forall (Forall (λ w, has_quote w = false)) (file_lines f).

#[export] Instance file_unquoted_dec f : Decision (file_unquoted f).
Proof. unfold file_unquoted. apply _. Defined.

(** A cell as a column of the given dtype holds it: an integer, a
    float, or for an object column a text that is no missing-value marker,
    or NaN. *)
Definition conforms (dt : dtype) (c : cell) : Prop :=
  match dt with
  | dt_int => ∃ z, c = Int z
  | dt_float => ∃ f, c = Float f
  | dt_object => c = Float NaN ∨ ∃ w, c = Str w ∧ is_na w = false
  end.

Definition row_conforms (r : Row) : Prop :=
  Forall2 (λ name c, conforms (default dt_object (dtypes !! name)) c)
          column_names (cells_of_row r).

(** The blocks and the lines of the files of a list of countries, in
    the order of the list; a file that does not exist has none. *)
Definition source_blocks (fs : gmap string SourceFile) (cs : list string)
    : list Block :=
  concat ((λ c, default [] (fs !! country_txt c)) <$> cs).

Definition source_lines (fs : gmap string SourceFile) (cs : list string)
    : list Line :=
  concat (source_blocks fs cs).

(** ** Sample data for the worked examples *)

Module Sample.

(** Two well-formed GeoNames lines: a mountain and a populated place. *)
Definition line_bear : Line :=
  [ "5500001"; "Bear Mountain"; "Bear Mountain"; ""; "45.5"; "-110.25";
    "T"; "MT"; "US"; ""; "MT"; "031"; ""; ""; "0"; "2500"; "2510";
    "America/Denver"; "2010-01-01" ].

Definition line_springfield : Line :=
  [ "5500002"; "Springfield"; "Springfield"; ""; "39.75"; "-89.5";
    "P"; "PPL"; "US"; ""; "IL"; "167"; ""; ""; "116250"; ""; "181";
    "America/Chicago"; "2011-05-14" ].

Definition line_popo : Line :=
  [ "3520001"; "Popocatepetl"; "Popocatepetl"; ""; "19.0"; "-98.625";
    "T"; "VLC"; "MX"; ""; "15"; ""; ""; ""; "0"; "5426"; "5400";
    "America/Mexico_City"; "2012-03-01" ].

(** A lake, for the third country. *)
Definition line_louise : Line :=
  [ "5990001"; "Lake Louise"; "Lake Louise"; ""; "51.25"; "-116.5";
    "H"; "LK"; "CA"; ""; "01"; ""; ""; ""; "0"; ""; "1750";
    "America/Edmonton"; "2013-07-01" ].

(** The mountain line without its last field, and without its last
    three fields. *)
Definition line_bear_18 : Line := take 18 line_bear.
Definition line_bear_16 : Line := take 16 line_bear.

(** The mountain line with a latitude that is not a number, and with a
    latitude that is a missing-value marker. *)
Definition line_bear_abc : Line := <[ 4 := "abc" ]> line_bear.

Definition f45_5 : float64 := S754_finite false 6403555720167424 (-47).
Definition f_110_25 : float64 := S754_finite true 7758154045587456 (-46).

Definition row_bear : Row :=
  {| geonameid := Int 5500001; name := Str "Bear Mountain";
     asciiname := Str "Bear Mountain"; alternatenames := Float NaN;
     latitude := Float f45_5; longitude := Float f_110_25;
     feature_class := Str "T"; feature_code := Str "MT";
     country_code := Str "US"; cc2 := Float NaN;
     admin1_code := Str "MT"; admin2_code := Str "031";
     admin3_code := Float NaN; admin4_code := Float NaN;
     population := Int 0; elevation := Float (float_of_Z 2500);
     dem := Int 2510; timezone := Str "America/Denver";
     modification_date := Str "2010-01-01" |}.

Definition set_latitude (c : cell) (r : Row) : Row :=
  mkRow (geonameid r) (name r) (asciiname r) (alternatenames r) c
        (longitude r) (feature_class r) (feature_code r) (country_code r)
        (cc2 r) (admin1_code r) (admin2_code r) (admin3_code r)
        (admin4_code r) (population r) (elevation r) (dem r) (timezone r)
        (modification_date r).

Definition set_longitude (c : cell) (r : Row) : Row :=
  mkRow (geonameid r) (name r) (asciiname r) (alternatenames r)
        (latitude r) c (feature_class r) (feature_code r) (country_code r)
        (cc2 r) (admin1_code r) (admin2_code r) (admin3_code r)
        (admin4_code r) (population r) (elevation r) (dem r) (timezone r)
        (modification_date r).

Definition set_modification_date (c : cell) (r : Row) : Row :=
  mkRow (geonameid r) (name r) (asciiname r) (alternatenames r)
        (latitude r) (longitude r) (feature_class r) (feature_code r)
        (country_code r) (cc2 r) (admin1_code r) (admin2_code r)
        (admin3_code r) (admin4_code r) (population r) (elevation r) (dem r)
        (timezone r) c.

(** A latitude of 91 degrees, and a missing longitude. *)
Definition row_lat_91 : Row := set_latitude (Float (float_of_Z 91)) row_bear.
Definition row_no_longitude : Row := set_longitude (Float NaN) row_bear.

(** The three country files, the first one cut into two blocks. *)
Definition files : gmap string SourceFile :=
  {[ "data/US.txt" := [[line_bear]; [line_springfield]];
     "data/MX.txt" := [[line_popo]];
     "data/CA.txt" := [[line_louise]] ]}.


(** Outside the input format: the mountain line with a surplus leading
    field, and a line of 19 fields that converts both under the names in
    place and under the names moved one field to the right; its eighth
    field is "T". *)
Definition line_wide : Line := "x" :: line_bear.




(** An output file that already has a layer called "mountains". *)
Definition old_layer : Layer := mkLayer "EPSG:3857" "latin-1" [].
Definition disk_with_mountains : Disk :=
  {[ output_path := {[ "mountains" := old_layer ]} ]}.

Definition gdf_bear : GeoDataFrame :=
  mkGeoDataFrame crs_4326 [mkSpatial row_bear (mkPoint f_110_25 f45_5)].

(** The frames the loader returns for the first country and for the
    other two, with the decimal converters. *)
Definition frame_of (m : result DaskDataFrame) : DaskDataFrame :=
  match m with Ok D => D | Raise _ => [] end.

Definition frame_us : DaskDataFrame :=
  Eval vm_compute in frame_of (@load Decimal.converters files ["US"]).

Definition frame_mx_ca : DaskDataFrame :=
  Eval vm_compute in frame_of (@load Decimal.converters files ["MX"; "CA"]).

(** The disks the pipeline leaves for the first country, from the empty
    disk and from the disk with a layer. *)
Definition disk_of (m : result Disk) : Disk :=
  match m with Ok disk => disk | Raise _ => ∅ end.

Definition disk_us : Disk :=
  Eval vm_compute in disk_of (@pipeline Decimal.converters "T" files ["US"] ∅).

Definition disk_us_over : Disk :=
  Eval vm_compute in
    disk_of (@pipeline Decimal.converters "T" files ["US"] disk_with_mountains).

(** A network that serves every archive, one that serves the first
    country only, and the file systems the download loop leaves with
    them, from a file system with its data folder. *)
Definition net_all : Setup.Network := λ _, Some (Setup.Whole "archive").

Definition net_us : Setup.Network := λ url,
  if String.eqb url (Setup.archive_url "US") then Some (Setup.Whole "archive")
  else None.

Definition fs_data : Setup.FileSystem := {[ "data" := Setup.Dir ]}.

Definition fs_all : Setup.FileSystem :=
  Eval vm_compute in (Setup.download_countries net_all countries fs_data).1.

Definition fs_us : Setup.FileSystem :=
  Eval vm_compute in (Setup.download_countries net_us ["US"] fs_data).1.

(** The file system the folders cell and the download loop leave from
    the empty one, no [mkdir] being refused. *)
Definition fs_setup : Setup.FileSystem :=
  Eval vm_compute in
    (Setup.seq (Setup.make_folders (λ _, false))
       (Setup.download_countries net_all countries) ∅).1.

End Sample.

(** * Properties *)

(** ** Results and [traverse] *)

Section Traverse.
Context {A B : Type}.
Implicit Types (f : A → result B) (l : list A).

Lemma traverse_app f l1 l2 :
  traverse f (l1 ++ l2)
  = xs ← traverse f l1; ys ← traverse f l2; Ok (xs ++ ys).
Proof.
  induction l1 as [|x l1 IH]; simpl.
  - by destruct (traverse f l2).
  - destruct (f x); simpl; [|done].
    rewrite IH. destruct (traverse f l1); simpl; [|done].
    by destruct (traverse f l2).
Qed.

Lemma traverse_Ok f l ys :
  traverse f l = Ok ys ↔ Forall2 (λ x y, f x = Ok y) l ys.
Proof.
  revert ys. induction l as [|x l IH]; intros ys; simpl.
  - split; [intros [= <-]; constructor | by inversion 1].
  - destruct (f x) as [y|e] eqn:Hx; simpl.
    + destruct (traverse f l) as [zs|e] eqn:Hl; simpl.
      * split.
        -- intros [= <-]. constructor; [done|]. by apply IH.
        -- inversion 1 as [|? ? ? ? Hy Hzs]; subst.
           rewrite Hx in Hy. injection Hy as <-.
           apply IH in Hzs. by injection Hzs as <-.
      * split; [done|]. inversion 1 as [|? ? ? ? _ Hzs]; subst.
        by apply IH in Hzs.
    + split; [done|]. inversion 1 as [|? ? ? ? Hy _]; subst.
      by rewrite Hx in Hy.
Qed.

Lemma traverse_is_ok f l :
  is_ok (traverse f l) = true ↔ Forall (λ x, is_ok (f x) = true) l.
Proof.
  induction l as [|x l IH]; simpl.
  - split; [constructor | done].
  - rewrite Forall_cons, <- IH.
    destruct (f x); simpl; [|by intuition].
    destruct (traverse f l); simpl; by intuition.
Qed.

Lemma traverse_elem_error f l x :
  x ∈ l → is_error (f x) = true → is_error (traverse f l) = true.
Proof.
  intros Hx Hf. unfold is_error in *.
  destruct (is_ok (traverse f l)) eqn:Hok; [|done].
  apply traverse_is_ok in Hok.
  rewrite Forall_forall in Hok. apply Hok in Hx.
  by rewrite Hx in Hf.
Qed.

Lemma traverse_Raise f l e :
  traverse f l = Raise e → ∃ x, x ∈ l ∧ f x = Raise e.
Proof.
  induction l as [|x l IH]; cbn [traverse]; [done|].
  destruct (f x) as [y|e'] eqn:Hx; cbn.
  - destruct (traverse f l) as [ys|e'']; cbn; [done|].
    intros [= <-]. destruct IH as (x' & ? & ?); [done|].
    exists x'. split; [by right | done].
  - intros [= <-]. exists x. split; [by left | done].
Qed.

Lemma traverse_ext f g l :
  (∀ x, x ∈ l → f x = g x) → traverse f l = traverse g l.
Proof.
  induction l as [|x l IH]; intros Hfg; simpl; [done|].
  rewrite (Hfg x) by left.
  rewrite IH; [done|]. intros y Hy. apply Hfg. by right.
Qed.

Lemma traverse_concat f (ls : list (list A)) :
  @concat B <$> traverse (traverse f) ls = traverse f (concat ls).
Proof.
  induction ls as [|l ls IH]; simpl; [done|].
  rewrite traverse_app, <- IH.
  destruct (traverse f l); simpl; [|done].
  by destruct (traverse (traverse f) ls).
Qed.

End Traverse.


Lemma traverse_pre {A B C} (f : B → result C) (h : A → B) (l : list A) :
  traverse f (h <$> l) = traverse (λ x, f (h x)) l.
Proof.
  induction l as [|x l IH]; [done|].
  rewrite fmap_cons. cbn [traverse]. by rewrite IH.
Qed.

Lemma is_error_Raise {A} (m : result A) :
  is_error m = true ↔ ∃ e, m = Raise e.
Proof. destruct m; simpl; split; try done; [by intros [? ?] | eauto]. Qed.

(** ** The row filter *)

Lemma eq_str_spec (c : cell) (v : string) : eq_str c v = true ↔ c = Str v.
Proof.
  destruct c as [z|f|s]; cbn [eq_str]; [done..|].
  rewrite String.eqb_eq. split; [by intros -> | by intros [= ->]].
Qed.

(** Selection by the mask of a predicate is the list filter of that
    predicate. *)
Lemma getitem_mask_filter (v : string) (part : Partition) :
  getitem_mask part (feature_class_mask v part) = filter (has_class v) part.
Proof.
  unfold getitem_mask, feature_class_mask.
  induction part as [|r part IH]; [done|].
  rewrite filter_cons, fmap_cons. cbn [zip zip_with List.filter snd].
  destruct (decide (has_class v r)) as [Hv|Hv].
  - apply eq_str_spec in Hv. rewrite Hv, fmap_cons. cbn [fst].
    by rewrite <- IH.
  - destruct (eq_str (feature_class r) v) eqn:Heq; [|exact IH].
    by apply eq_str_spec in Heq.
Qed.

Lemma filter_concat {A} (P : A → Prop) `{!∀ x, Decision (P x)}
    (ls : list (list A)) :
  filter P (concat ls) = concat (filter P <$> ls).
Proof.
  induction ls as [|l ls IH]; [done|].
  rewrite fmap_cons. cbn [concat]. by rewrite filter_app, IH.
Qed.

Lemma compute_row_filter (v : string) (D : DaskDataFrame) :
  compute (row_filter v D) = filter (has_class v) (compute D).
Proof.
  unfold compute, row_filter. rewrite filter_concat. f_equal.
  apply list_fmap_ext. intros _ part _. apply getitem_mask_filter.
Qed.

(** C1.  For every dask dataframe [D] and feature-class value [v], the
    row filter returns exactly the rows of [D] whose feature class is
    [v]: the computed result is the sub-list of those rows, so a row is in
    the result if and only if it is a row of [D] with feature class [v]
    (no row with another class, or with a missing one, is selected), and a
    selected row is the row of [D] itself, all its cells unchanged. *)
Theorem C1_row_filter_exact (v : string) (D : DaskDataFrame) :
  compute (row_filter v D) = filter (has_class v) (compute D)
  ∧ (∀ r, r ∈ compute (row_filter v D)
          ↔ r ∈ compute D ∧ feature_class r = Str v)
  ∧ (∀ r, r ∈ compute D → feature_class r ≠ Str v →
          r ∉ compute (row_filter v D)).
Proof.
  split_and!.
  - apply compute_row_filter.
  - intros r. rewrite compute_row_filter, list_elem_of_filter.
    unfold has_class. tauto.
  - intros r _ Hne. rewrite compute_row_filter, list_elem_of_filter.
    unfold has_class. tauto.
Qed.

(** C9.  The row filter is stable: the computed rows of the filtered
    frame are a sub-sequence of the computed rows of [D], in the same
    relative order, and filtering a concatenation of frames gives the
    filtered frames in the order of the concatenation. *)
Theorem C9_row_filter_stable (v : string) (D : DaskDataFrame) :
  compute (row_filter v D) `sublist_of` compute D
  ∧ (∀ dfs : list DaskDataFrame,
       compute (row_filter v (dd_concat dfs))
       = concat ((λ df, compute (row_filter v df)) <$> dfs)).
Proof.
  split.
  - rewrite compute_row_filter. apply sublist_filter.
  - intros dfs. rewrite !compute_row_filter.
    unfold dd_concat, compute.
    induction dfs as [|df dfs IH]; [done|].
    rewrite fmap_cons. cbn [concat].
    rewrite concat_app, filter_app, IH.
    f_equal. symmetry. apply compute_row_filter.
Qed.

(** ** The geometry builder *)

Lemma traverse_zip_with {A B C} (f : A → result B) (g : A → B → C)
    (l : list A) :
  traverse (λ x, fmap (M:=result) (g x) (f x)) l
  = fmap (M:=result) (zip_with g l) (traverse f l).
Proof.
  induction l as [|x l IH]; [done|].
  cbn [traverse]. rewrite IH.
  destruct (f x); [|done]. by destruct (traverse f l).
Qed.

Lemma SFeqb_refl (f : float64) : is_number f = true → SFeqb f f = true.
Proof.
  unfold SFeqb. destruct f as [s|s| |s m e]; cbn [is_number SFcompare].
  - done.
  - by destruct s.
  - done.
  - intros _. rewrite Z.compare_refl.
    assert (Pos.compare_cont Eq m m = Eq) as ->
      by (change (Pos.compare m m = Eq); apply Pos.compare_refl).
    by destruct s.
Qed.

Section GeometryProperties.
Context `{!Converters}.

Lemma to_float64_Raise (c : cell) (e : exn) :
  to_float64 c = Raise e → e = ValueError.
Proof.
  destruct c as [z|f|s]; cbn [to_float64]; [done..|].
  destruct (py_float s); [done|]. by intros [= <-].
Qed.

Lemma traverse_to_float64_Raise (cs : list cell) (e : exn) :
  traverse to_float64 cs = Raise e → e = ValueError.
Proof.
  intros (c & _ & Hc)%traverse_Raise. by apply to_float64_Raise in Hc.
Qed.

(** Converting the two columns one after the other, as geopandas does,
    gives what converting row by row gives. *)
Lemma geopandas_points_from_xy_rows (data : list Row) :
  geopandas_points_from_xy (longitude <$> data) (latitude <$> data)
  = traverse point_of_row data.
Proof.
  unfold geopandas_points_from_xy.
  induction data as [|r data IH]; [done|].
  rewrite !fmap_cons. cbn [traverse]. rewrite <- IH. unfold point_of_row.
  destruct (to_float64 (longitude r)) as [x|e1] eqn:Hx; cbn; [|
    apply to_float64_Raise in Hx; by subst].
  destruct (traverse to_float64 (longitude <$> data)) as [xs|e2] eqn:Hxs; cbn.
  - destruct (to_float64 (latitude r)) as [y|e3] eqn:Hy; cbn; [|done].
    by destruct (traverse to_float64 (latitude <$> data)).
  - apply traverse_to_float64_Raise in Hxs. subst.
    destruct (to_float64 (latitude r)) as [y|e3] eqn:Hy; cbn; [done|].
    apply to_float64_Raise in Hy. by subst.
Qed.

(** The geometry builder, row by row over the computed frame. *)
Lemma geometry_builder_rows (D : DaskDataFrame) :
  geometry_builder D
  = mkGeoDataFrame crs_4326 <$> traverse spatial_record (compute D).
Proof.
  unfold geometry_builder, points_from_xy, from_dask_dataframe_compute,
    compute, setitem_geometry.
  rewrite (traverse_ext _ (traverse point_of_row))
    by (intros; apply geopandas_points_from_xy_rows).
  rewrite <- traverse_concat.
  rewrite (traverse_ext (traverse spatial_record)
             (λ part, fmap (M:=result) (zip_with mkSpatial part)
                        (traverse point_of_row part)))
    by (intros; apply (traverse_zip_with point_of_row mkSpatial)).
  rewrite (traverse_zip_with (traverse point_of_row) (zip_with mkSpatial)).
  by destruct (traverse (traverse point_of_row) D).
Qed.

Lemma spatial_record_Ok (r : Row) (sr : SpatialRecord) :
  spatial_record r = Ok sr →
  attrs sr = r
  ∧ to_float64 (longitude r) = Ok (px (geometry sr))
  ∧ to_float64 (latitude r) = Ok (py (geometry sr)).
Proof.
  unfold spatial_record, point_of_row.
  destruct (to_float64 (longitude r)) as [x|]; cbn; [|done].
  destruct (to_float64 (latitude r)) as [y|]; cbn; [|done].
  by intros [= <-].
Qed.

Lemma spatial_record_is_ok (r : Row) :
  is_ok (spatial_record r) = true
  ↔ is_ok (to_float64 (longitude r)) = true
    ∧ is_ok (to_float64 (latitude r)) = true.
Proof.
  unfold spatial_record, point_of_row.
  destruct (to_float64 (longitude r)); cbn; [|by intuition].
  destruct (to_float64 (latitude r)); cbn; by intuition.
Qed.

Lemma geometry_builder_is_ok (D : DaskDataFrame) :
  is_ok (geometry_builder D) = true
  ↔ Forall (λ r, is_ok (to_float64 (longitude r)) = true
                 ∧ is_ok (to_float64 (latitude r)) = true) (compute D).
Proof.
  rewrite geometry_builder_rows.
  rewrite <- (Forall_iff (λ r, is_ok (spatial_record r) = true))
    by (intros r; apply spatial_record_is_ok).
  rewrite <- traverse_is_ok.
  by destruct (traverse spatial_record (compute D)).
Qed.

Lemma to_float64_is_float (c : cell) :
  is_float c = true → is_ok (to_float64 c) = true.
Proof. by destruct c. Qed.

(** C2.  On a filtered frame whose longitude and latitude cells are
    floats, the geometry builder succeeds; the records of the resulting
    frame are the rows of the filtered frame, in order, each with its
    geometry; and the geometry of a record with longitude [x] and
    latitude [y] is [Point(x, y)]: its x is the longitude and its y the
    latitude, equal to them as floats whenever they are numbers. *)
Theorem C2_geometry_round_trip (filtered : DaskDataFrame) :
  Forall (λ r, is_float (longitude r) = true ∧ is_float (latitude r) = true)
         (compute filtered) →
  ∃ gdf,
    geometry_builder filtered = Ok gdf
    ∧ attrs <$> features gdf = compute filtered
    ∧ ∀ sr x y,
        sr ∈ features gdf →
        longitude (attrs sr) = Float x →
        latitude (attrs sr) = Float y →
        geometry sr = mkPoint x y
        ∧ (is_number x = true → SFeqb (px (geometry sr)) x = true)
        ∧ (is_number y = true → SFeqb (py (geometry sr)) y = true).
Proof.
  intros Hfloat. rewrite geometry_builder_rows.
  destruct (traverse spatial_record (compute filtered)) as [srs|e] eqn:Hsrs.
  - apply traverse_Ok in Hsrs. exists (mkGeoDataFrame crs_4326 srs).
    split_and!; [done| |]; cbn [features].
    + clear Hfloat. induction Hsrs as [|r sr rows srs Hr _ IH]; [done|].
      rewrite fmap_cons, IH. f_equal.
      by apply spatial_record_Ok in Hr as (? & _).
    + intros sr x y Hsr Hx Hy.
      apply list_elem_of_lookup in Hsr as [i Hi].
      destruct (Forall2_lookup_r _ _ _ _ _ Hsrs Hi) as (r & _ & Hr).
      apply spatial_record_Ok in Hr as (<- & Hlon & Hlat).
      rewrite Hx in Hlon. rewrite Hy in Hlat. cbn in Hlon, Hlat.
      injection Hlon as Hlon. injection Hlat as Hlat.
      destruct (geometry sr) as [gx gy]; cbn in *. subst gx gy.
      split_and!; [done|apply SFeqb_refl..].
  - exfalso.
    assert (is_ok (traverse spatial_record (compute filtered)) = true) as Hok.
    { apply traverse_is_ok. eapply Forall_impl; [exact Hfloat|].
      intros r [Hx Hy]. apply spatial_record_is_ok.
      split; by apply to_float64_is_float. }
    by rewrite Hsrs in Hok.
Qed.

(** C3, as the code has it.  The geometry builder checks nothing but
    the conversion of the two cells to float64: it succeeds exactly when
    every longitude and latitude cell of the frame converts, every float
    cell converts to itself whatever its value (NaN for a missing
    coordinate, a value outside the coordinate ranges), and the only
    failure is the ValueError of a text cell that [float()] rejects. *)
Theorem C3_builder_checks_conversion_only (filtered : DaskDataFrame) :
  (is_ok (geometry_builder filtered) = true
   ↔ Forall (λ r, is_ok (to_float64 (longitude r)) = true
                  ∧ is_ok (to_float64 (latitude r)) = true)
            (compute filtered))
  ∧ (∀ f : float64, to_float64 (Float f) = Ok f)
  ∧ (∀ s : string, py_float s = None → to_float64 (Str s) = Raise ValueError)
  ∧ (∀ e, geometry_builder filtered = Raise e → e = ValueError).
Proof.
  split_and!.
  - apply geometry_builder_is_ok.
  - done.
  - intros s Hs. cbn [to_float64]. by rewrite Hs.
  - intros e. rewrite geometry_builder_rows.
    destruct (traverse spatial_record (compute filtered)) as [|e'] eqn:Ht;
      cbn; [done|].
    intros [= <-]. apply traverse_Raise in Ht as (r & _ & Hr).
    revert Hr. unfold spatial_record, point_of_row.
    destruct (to_float64 (longitude r)) as [x|e1] eqn:Hx; cbn;
      [|intros [= <-]; by apply to_float64_Raise in Hx].
    destruct (to_float64 (latitude r)) as [y|e1] eqn:Hy; cbn; [done|].
    intros [= <-]. by apply to_float64_Raise in Hy.
Qed.

End GeometryProperties.

(** ** The record loader *)

Lemma dtypes_cover_column_names :
  Forall (λ n, is_Some (dtypes !! n)) column_names.
Proof.
  unfold column_names.
  repeat (apply List.Forall_cons; [eexists; vm_compute; reflexivity|]).
  apply List.Forall_nil.
Qed.

Lemma row_of_cells_Some (cs : list cell) (r : Row) :
  row_of_cells cs = Some r → cs = cells_of_row r.
Proof.
  do 19 (destruct cs as [|? cs]; [done|]).
  destruct cs; [|done]. by intros [= <-].
Qed.

Lemma row_of_cells_length (cs : list cell) :
  length cs = length column_names → is_Some (row_of_cells cs).
Proof.
  do 19 (destruct cs as [|? cs]; [done|]).
  destruct cs; [|done]. by eexists.
Qed.

Lemma table_width_ge (b : Block) : length column_names ≤ table_width b.
Proof. destruct b; cbn [table_width]; lia. Qed.

Lemma table_width_within (b : Block) :
  Forall within_schema b → table_width b = length column_names.
Proof.
  destruct 1 as [|l b Hl _]; cbn [table_width]; [done|].
  unfold within_schema in Hl. lia.
Qed.

Lemma end_line_Ok (expected : nat) (l w : Line) :
  end_line expected l = Ok w →
  length l ≤ expected ∧ w = l ++ replicate (expected - length l) "".
Proof.
  unfold end_line. case_decide; [done|]. intros [= <-]. split; [lia|done].
Qed.

Lemma end_line_within (l : Line) :
  within_schema l → end_line (length column_names) l = Ok (pad l).
Proof.
  unfold within_schema, end_line, pad. intros Hl.
  rewrite decide_False by lia. done.
Qed.

Lemma pad_length (l : Line) :
  within_schema l → length (pad l) = length column_names.
Proof.
  unfold within_schema, pad. intros Hl.
  rewrite length_app, length_replicate. lia.
Qed.

Lemma pad_full (l : Line) : length l = length column_names → pad l = l.
Proof.
  unfold pad. intros ->. rewrite Nat.sub_diag. apply app_nil_r.
Qed.

Section LoaderProperties.
Context `{!Converters}.

Lemma skip_blank_lines_within (b : Block) :
  Forall within_schema b → Forall within_schema (skip_blank_lines b).
Proof.
  rewrite !Forall_forall. intros Hb l [_ Hl]%list_elem_of_filter. by apply Hb.
Qed.

Lemma pandas_read_csv_within (b : Block) :
  Forall within_schema b →
  pandas_read_csv b = traverse read_line (skip_blank_lines b).
Proof.
  intros Hb%skip_blank_lines_within. unfold pandas_read_csv, leading_cols.
  cbn zeta. generalize dependent (skip_blank_lines b). clear b. intros b Hb.
  rewrite (table_width_within b Hb), Nat.sub_diag.
  rewrite (traverse_ext (end_line (length column_names))
             (λ l, Ok (pad l)) b).
  - assert (traverse (λ l : Line, Ok (pad l)) b = Ok (pad <$> b)) as ->.
    { clear Hb. induction b as [|l b IH]; [done|].
      cbn [traverse]. by rewrite IH. }
    exact (traverse_pre (convert_line 0) pad b).
  - intros l Hl. apply end_line_within.
    rewrite Forall_forall in Hb. by apply Hb.
Qed.

(** A cell that cannot be converted makes the conversion of its line
    fail. *)
Lemma convert_line_cell_error (lead i : nat) (words : Line)
    (name word : string) :
  column_names !! i = Some name →
  words !! (lead + i) = Some word →
  is_error (convert_tokens name word) = true →
  is_error (convert_line lead words) = true.
Proof.
  intros Hname Hword Herr. unfold convert_line.
  assert (is_error (traverse (λ nw : string * string,
            convert_tokens nw.1 nw.2)
            (zip column_names (drop lead words))) = true) as Ht.
  { apply (traverse_elem_error _ _ (name, word)); [|done].
    apply (list_elem_of_lookup_2 _ i).
    apply lookup_zip_with_Some. exists name, word.
    split_and!; [done|done|]. by rewrite lookup_drop. }
  apply is_error_Raise in Ht as [e ->]. done.
Qed.

(** The cells of a converted line come from the fields of the line,
    column by column. *)
Lemma convert_line_cell (lead i : nat) (words : Line) (r : Row)
    (name : string) (c : cell) :
  convert_line lead words = Ok r →
  column_names !! i = Some name →
  cells_of_row r !! i = Some c →
  ∃ word, words !! (lead + i) = Some word ∧ convert_tokens name word = Ok c.
Proof.
  unfold convert_line. intros Hr Hname Hc.
  destruct (traverse _ _) as [cs|] eqn:Hcs; cbn in Hr; [|done].
  destruct (row_of_cells cs) as [r'|] eqn:Hrow; [|done].
  injection Hr as ->. apply row_of_cells_Some in Hrow as ->.
  apply traverse_Ok in Hcs.
  destruct (Forall2_lookup_r _ _ _ _ _ Hcs Hc) as ([n w] & Hnw & Hconv).
  apply lookup_zip_with_Some in Hnw as (n' & w' & [= -> ->] & Hn & Hw).
  rewrite lookup_drop in Hw. exists w'. split; [done|].
  cbn in Hconv. congruence.
Qed.

(** On a line filled up to the table width the only failure of the
    conversion is that of a field. *)
Lemma convert_line_Raise (lead : nat) (words : Line) (e : exn) :
  length words = lead + length column_names →
  convert_line lead words = Raise e → e = ValueError.
Proof.
  intros Hlen. unfold convert_line.
  destruct (traverse _ _) as [cs|e'] eqn:Hcs; cbn.
  - apply traverse_Ok, Forall2_length in Hcs.
    rewrite length_zip, length_drop in Hcs.
    destruct (row_of_cells_length cs) as [r ->]; [lia | done].
  - intros [= <-]. apply traverse_Raise in Hcs as ([n w] & _ & Hnw).
    revert Hnw. cbn. unfold convert_tokens.
    destruct (default dt_object (dtypes !! n)); cbn; [| |done].
    + destruct (is_na w); [by intros [= <-]|].
      destruct (str_to_int64 w); [done | by intros [= <-]].
    + destruct (is_na w); [done|].
      destruct (str_to_double w); [done | by intros [= <-]].
Qed.

Lemma convert_float_is_float (name word : string) (c : cell) :
  dtypes !! name = Some dt_float →
  convert_tokens name word = Ok c → is_float c = true.
Proof.
  unfold convert_tokens. intros -> Hc. cbn in Hc.
  destruct (is_na word); [by injection Hc as <-|].
  destruct (str_to_double word); [by injection Hc as <-|done].
Qed.


Lemma convert_int_missing (name : string) :
  dtypes !! name = Some dt_int →
  is_error (convert_tokens name "") = true.
Proof. unfold convert_tokens. intros ->. by vm_compute. Qed.

Lemma convert_line_floats (lead : nat) (words : Line) (r : Row) :
  convert_line lead words = Ok r →
  is_float (latitude r) = true ∧ is_float (longitude r) = true.
Proof.
  intros Hr. split.
  - destruct (convert_line_cell lead 4 words r "latitude" (latitude r))
      as (w & _ & Hw); [done..|].
    by apply (convert_float_is_float "latitude" w).
  - destruct (convert_line_cell lead 5 words r "longitude" (longitude r))
      as (w & _ & Hw); [done..|].
    by apply (convert_float_is_float "longitude" w).
Qed.

Lemma pandas_read_csv_floats (b : Block) (part : Partition) :
  pandas_read_csv b = Ok part →
  Forall (λ r, is_float (latitude r) = true ∧ is_float (longitude r) = true)
         part.
Proof.
  unfold pandas_read_csv. cbn zeta.
  destruct (traverse _ (skip_blank_lines b)) as [lines|]; cbn; [|done].
  generalize (leading_cols (skip_blank_lines b)).
  intros lead Hpart%traverse_Ok.
  induction Hpart as [|l r lines part Hr _ IH]; constructor; [|done].
  by apply convert_line_floats in Hr.
Qed.

(** A bad line makes the read of its block fail; [bad] is any property
    of a tokenized line that makes its conversion fail. *)
Lemma pandas_read_csv_line_error (b : Block) (l : Line) :
  l ∈ b → ¬ blank l →
  (∀ w, end_line (table_width (skip_blank_lines b)) l = Ok w →
        is_error (convert_line (leading_cols (skip_blank_lines b)) w) = true) →
  is_error (pandas_read_csv b) = true.
Proof.
  intros Hl Hnb Hbad. unfold pandas_read_csv. cbn zeta.
  assert (l ∈ skip_blank_lines b) as Hl'
    by (apply list_elem_of_filter; by split).
  clear Hl.
  destruct (traverse _ (skip_blank_lines b)) as [lines|] eqn:Hlines; cbn;
    [|done].
  apply traverse_Ok in Hlines.
  apply list_elem_of_lookup in Hl' as [i Hi].
  destruct (Forall2_lookup_l _ _ _ _ _ Hlines Hi) as (w & Hw & Hend).
  apply (traverse_elem_error _ _ w);
    [by apply (list_elem_of_lookup_2 _ i) | by apply Hbad].
Qed.


(** The read of a file that has blocks, and what a read that returns
    has read. *)
Lemma dd_read_csv_Some (fs : gmap string SourceFile) (path : string)
    (blocks : SourceFile) :
  fs !! path = Some blocks → blocks ≠ [] →
  dd_read_csv fs path = traverse pandas_read_csv blocks.
Proof. unfold dd_read_csv. intros -> Hne. by destruct blocks. Qed.

Lemma dd_read_csv_Ok (fs : gmap string SourceFile) (path : string)
    (df : DaskDataFrame) :
  dd_read_csv fs path = Ok df →
  ∃ blocks, fs !! path = Some blocks ∧ blocks ≠ []
            ∧ traverse pandas_read_csv blocks = Ok df.
Proof.
  unfold dd_read_csv. destruct (fs !! path) as [[|b blocks]|]; [done| |done].
  intros Hdf. by exists (b :: blocks).
Qed.

Lemma dd_read_csv_block_error (fs : gmap string SourceFile) (path : string)
    (blocks : SourceFile) (b : Block) :
  fs !! path = Some blocks → b ∈ blocks →
  is_error (pandas_read_csv b) = true →
  is_error (dd_read_csv fs path) = true.
Proof.
  intros Hfs Hb Herr. rewrite (dd_read_csv_Some fs path blocks Hfs).
  - by apply (traverse_elem_error _ _ b).
  - intros ->. by apply elem_of_nil in Hb.
Qed.

Lemma load_country_error (fs : gmap string SourceFile) (cs : list string)
    (c : string) :
  c ∈ cs → is_error (dd_read_csv fs (country_txt c)) = true →
  is_error (load fs cs) = true.
Proof.
  intros Hc Herr. unfold load, dd_list.
  assert (is_error (traverse (λ country, dd_read_csv fs (country_txt country))
                      cs) = true) as Ht
    by by apply (traverse_elem_error _ _ c).
  by apply is_error_Raise in Ht as [e ->].
Qed.

End LoaderProperties.

Lemma concat_concat {A} (lss : list (list (list A))) :
  concat (concat lss) = concat (@concat A <$> lss).
Proof.
  induction lss as [|ls lss IH]; [done|].
  rewrite fmap_cons. cbn [concat]. by rewrite concat_app, IH.
Qed.

Lemma concat_perm {A} (ls ls' : list (list A)) :
  ls ≡ₚ ls' → concat ls ≡ₚ concat ls'.
Proof.
  induction 1 as [|l ls ls' _ IH|l1 l2 ls|ls1 ls2 ls3 _ IH1 _ IH2];
    cbn [concat].
  - done.
  - by rewrite IH.
  - rewrite !app_assoc. f_equiv. apply Permutation_app_comm.
  - by rewrite IH1.
Qed.

Lemma traverse_perm {A B} (f : A → result B) (l l' : list A) (ys' : list B) :
  l ≡ₚ l' → traverse f l' = Ok ys' →
  ∃ ys, traverse f l = Ok ys ∧ ys ≡ₚ ys'.
Proof.
  intros Hperm. revert ys'.
  induction Hperm as [|x l l' _ IH|x1 x2 l|l1 l2 l3 _ IH1 _ IH2];
    intros ys'; cbn [traverse].
  - intros [= <-]. by exists [].
  - destruct (f x) as [y|]; cbn; [|done].
    destruct (traverse f l') as [zs'|]; cbn; [|done].
    intros [= <-]. destruct (IH zs') as (zs & -> & Hzs); [done|].
    exists (y :: zs). split; [done | by constructor].
  - destruct (f x1) as [y1|]; cbn; [|by destruct (f x2)].
    destruct (f x2) as [y2|]; cbn; [|done].
    destruct (traverse f l) as [zs|]; cbn; [|done].
    intros [= <-]. exists (y2 :: y1 :: zs). split; [done | by constructor].
  - intros H3. destruct (IH2 _ H3) as (ys2 & H2 & Hp2).
    destruct (IH1 _ H2) as (ys1 & H1 & Hp1).
    exists ys1. split; [done | by etrans].
Qed.

Lemma traverse_Ok_Forall {A B} (f : A → result B) (P : B → Prop)
    (l : list A) (ys : list B) :
  (∀ x y, f x = Ok y → P y) → traverse f l = Ok ys → Forall P ys.
Proof.
  intros HP Hys%traverse_Ok.
  induction Hys; constructor; eauto.
Qed.

Section LoaderClaims.
Context `{!Converters}.

Lemma load_Ok (fs : gmap string SourceFile) (cs : list string)
    (D : DaskDataFrame) :
  load fs cs = Ok D ↔
  ∃ dfs, dd_list fs cs = Ok dfs ∧ D = dd_concat dfs.
Proof.
  unfold load. destruct (dd_list fs cs) as [dfs|]; cbn.
  - split; [intros [= <-]; by exists dfs | by intros (? & [= <-] & ->)].
  - split; [done | by intros (? & ? & _)].
Qed.

(** C7.  Multiple sources are combined by concatenation in the order
    given.  [dd.concat] of any frames, whether loaded or not, has the rows
    of the frames one after the other, in the order of the list; the
    loader over a single country returns what [dd.read_csv] returns for
    its file; when the loader returns [D1] for the countries [cs1] and
    [D2] for the countries [cs2], it returns for [cs1 ++ cs2] the frame
    [dd.concat([D1, D2])]; and loading the union of the two lists of
    sources, in any order [cs], returns a frame with the same rows as [D1]
    and [D2] together, up to their order and with all duplicates kept. *)
Theorem C7_load_concatenates (fs : gmap string SourceFile)
    (cs1 cs2 cs : list string) (D1 D2 : DaskDataFrame) :
  load fs cs1 = Ok D1 →
  load fs cs2 = Ok D2 →
  cs ≡ₚ cs1 ++ cs2 →
  load fs (cs1 ++ cs2) = Ok (dd_concat [D1; D2])
  ∧ (∀ E1 E2 : DaskDataFrame,
       compute (dd_concat [E1; E2]) = compute E1 ++ compute E2)
  ∧ (∀ dfs : list DaskDataFrame,
       compute (dd_concat dfs) = concat (compute <$> dfs))
  ∧ (∀ c df, dd_read_csv fs (country_txt c) = Ok df → load fs [c] = Ok df)
  ∧ ∃ D, load fs cs = Ok D ∧ compute D ≡ₚ compute D1 ++ compute D2.
Proof.
  intros (dfs1 & H1 & ->)%load_Ok (dfs2 & H2 & ->)%load_Ok Hperm.
  assert (dd_list fs (cs1 ++ cs2) = Ok (dfs1 ++ dfs2)) as H12.
  { unfold dd_list in *. by rewrite traverse_app, H1, H2. }
  assert (dd_concat [dd_concat dfs1; dd_concat dfs2] = dd_concat (dfs1 ++ dfs2))
    as Hcat.
  { unfold dd_concat. cbn [concat]. by rewrite app_nil_r, concat_app. }
  split_and!.
  - apply load_Ok. by exists (dfs1 ++ dfs2).
  - intros E1 E2. unfold dd_concat, compute. cbn [concat].
    by rewrite app_nil_r, concat_app.
  - intros dfs. unfold dd_concat, compute. apply concat_concat.
  - intros c df Hdf. unfold load, dd_list. cbn [traverse]. rewrite Hdf. cbn.
    unfold dd_concat. cbn [concat]. by rewrite app_nil_r.
  - destruct (traverse_perm _ _ _ _ Hperm H12) as (dfs & Hdfs & Hp).
    exists (dd_concat dfs). split; [apply load_Ok; by exists dfs|].
    unfold compute, dd_concat. rewrite <- !concat_app.
    by do 2 apply concat_perm.
Qed.

Lemma load_floats (fs : gmap string SourceFile) (cs : list string)
    (merged : DaskDataFrame) :
  load fs cs = Ok merged →
  Forall (λ r, is_float (latitude r) = true ∧ is_float (longitude r) = true)
         (compute merged).
Proof.
  intros (dfs & Hdfs & ->)%load_Ok.
  unfold compute, dd_concat. do 2 apply Forall_concat.
  revert Hdfs. unfold dd_list. apply traverse_Ok_Forall.
  intros c df (blocks & _ & _ & Hdf)%dd_read_csv_Ok. revert Hdf.
  apply traverse_Ok_Forall. intros b part. apply pandas_read_csv_floats.
Qed.


(** C6, as the code has it.  A source line with fewer fields than the
    schema is not rejected for that: it is filled up with empty fields,
    so that reading a block whose lines are within the schema is
    converting its lines, each padded to 19 fields.  An empty field is a
    missing value, which the int columns do not admit: every file with a
    line (not a blank one) of fewer than 17 fields fails to load, the int
    column dem, the 17th, being missing then; only the two object columns
    after it can be left out. *)
Theorem C6_short_lines_are_padded :
  (∀ b : Block,
     Forall within_schema b →
     pandas_read_csv b
     = traverse (λ l, convert_line 0 (pad l)) (skip_blank_lines b))
  ∧ (∀ (fs : gmap string SourceFile) cs c blocks b l,
       c ∈ cs → fs !! country_txt c = Some blocks → b ∈ blocks → l ∈ b →
       ¬ blank l → length l < 17 →
       is_error (load fs cs) = true).
Proof.
  split.
  - intros b Hb. apply (pandas_read_csv_within b Hb).
  - intros fs cs c blocks b l Hc Hfs Hb Hl Hnb Hlen.
    apply (load_country_error fs cs c Hc).
    apply (dd_read_csv_block_error fs _ blocks b Hfs Hb).
    apply (pandas_read_csv_line_error b l Hl Hnb).
    intros words [Hex ->]%end_line_Ok.
    apply (convert_line_cell_error _ 16 _ "dem" ""); [done| |].
    + pose proof (table_width_ge (skip_blank_lines b)) as Hw.
      unfold leading_cols.
      change (length column_names) with 19 in *.
      rewrite lookup_app_r by lia. apply lookup_replicate_2. lia.
    + apply convert_int_missing. by vm_compute.
Qed.

End LoaderClaims.

(** ** The writer and the whole pipeline *)

Section PipelineClaims.
Context `{!Converters}.



(** The pipeline as a function of the computed rows of the loaded
    frame. *)
Lemma pipeline_rows (v : string) (fs : gmap string SourceFile)
    (cs : list string) (disk : Disk) :
  pipeline v fs cs disk
  = rows ← fmap (M:=result) compute (load fs cs);
    srs ← traverse spatial_record (filter (has_class v) rows);
    Ok (to_file (mkGeoDataFrame crs_4326 srs) output_path "mountains" "utf-8"
          disk).
Proof.
  unfold pipeline. destruct (load fs cs) as [merged|]; [|done].
  cbn [mbind result_bind fmap result_fmap].
  rewrite geometry_builder_rows, compute_row_filter.
  by destruct (traverse spatial_record _).
Qed.


(** C5, as the code has it.  The writer call names no conflict policy:
    [to_file] runs in its default mode, which overwrites.  After the
    write the layer of the requested name holds the new features with the
    frame's CRS and the given encoding, whether or not the container had
    a layer of that name; the other layers of the container are kept; and
    the pipeline, once the loader and the geometry builder have succeeded,
    returns normally with that write done whatever the disk held. *)
Theorem C5_to_file_overwrites (gdf : GeoDataFrame)
    (filename layer encoding : string) (disk : Disk) :
  (to_file gdf filename layer encoding disk !! filename ≫= (.!! layer)
   = Some (mkLayer (crs gdf) encoding (features gdf)))
  ∧ (∀ other, other ≠ layer →
       to_file gdf filename layer encoding disk !! filename ≫= (.!! other)
       = disk !! filename ≫= (.!! other))
  ∧ (∀ v fs cs merged,
       load fs cs = Ok merged →
       geometry_builder (row_filter v merged) = Ok gdf →
       pipeline v fs cs disk
       = Ok (to_file gdf output_path "mountains" "utf-8" disk)).
Proof.
  unfold to_file. split_and!.
  - rewrite lookup_insert_eq. cbn. apply lookup_insert_eq.
  - intros other Hother. rewrite lookup_insert_eq. cbn.
    rewrite lookup_insert_ne by done.
    by destruct (disk !! filename).
  - intros v fs cs merged Hload Hgdf. unfold pipeline.
    rewrite Hload. cbn. by rewrite Hgdf.
Qed.

End PipelineClaims.

(** The notebook is the pipeline at the filter value "T" and the three
    countries. *)
Lemma notebook_pipeline `{!Converters} (fs : gmap string SourceFile)
    (disk : Disk) :
  notebook fs disk = pipeline "T" fs countries disk.
Proof. reflexivity. Qed.

(** * Worked examples *)

(** The notebook on the sample files: the two mountains are written, the
    populated place and the lake are not. *)
Example notebook_sample :
  (λ disk, layer_features <$> (disk !! output_path ≫= (.!! "mountains")))
    <$> @notebook Decimal.converters Sample.files ∅
  = Ok (Some
      [ mkSpatial Sample.row_bear (mkPoint Sample.f_110_25 Sample.f45_5);
        mkSpatial (default Sample.row_bear (compute Sample.frame_mx_ca !! 0))
          (mkPoint (S754_finite true 6940117394522112 (-46))
                   (float_of_Z 19)) ]).
Proof. vm_compute. reflexivity. Qed.

(** The scenario of three lines with feature classes T, P and T: the
    filter for "T" keeps the first and the third, in that order. *)
Example filter_scenario :
  (λ D, feature_class <$> compute D)
    <$> @dd_read_csv Decimal.converters
          {[ "f" := [[Sample.line_bear; Sample.line_springfield];
                     [Sample.line_popo]] ]} "f"
  = Ok [Str "T"; Str "P"; Str "T"]
  ∧ (λ D, geonameid <$> compute (row_filter "T" D))
      <$> @dd_read_csv Decimal.converters
            {[ "f" := [[Sample.line_bear; Sample.line_springfield];
                       [Sample.line_popo]] ]} "f"
    = Ok [Int 5500001; Int 3520001].
Proof. split; vm_compute; reflexivity. Qed.

(** C2 at the sample mountain. *)
Lemma C2_witness :
  Forall (λ r, is_float (longitude r) = true ∧ is_float (latitude r) = true)
         (compute [[Sample.row_bear]])
  ∧ ∃ gdf,
      @geometry_builder Decimal.converters [[Sample.row_bear]] = Ok gdf
      ∧ attrs <$> features gdf = compute [[Sample.row_bear]]
      ∧ ∀ sr x y,
          sr ∈ features gdf →
          longitude (attrs sr) = Float x →
          latitude (attrs sr) = Float y →
          geometry sr = mkPoint x y
          ∧ (is_number x = true → SFeqb (px (geometry sr)) x = true)
          ∧ (is_number y = true → SFeqb (py (geometry sr)) y = true).
Proof.
  assert (Forall (λ r, is_float (longitude r) = true
                       ∧ is_float (latitude r) = true)
                 (compute [[Sample.row_bear]])) as Hfloat.
  { apply List.Forall_cons; [split; reflexivity | apply List.Forall_nil]. }
  split; [exact Hfloat|].
  exact (@C2_geometry_round_trip Decimal.converters [[Sample.row_bear]] Hfloat).
Defined.

(** C3 as stated fails: a row with latitude 91 and a row without
    longitude do not have valid coordinates, and the geometry builder
    succeeds on them, with the points (-110.25, 91) and (NaN, 45.5). *)
Lemma C3_counterexample :
  valid_coordinates Sample.row_lat_91 = false
  ∧ valid_coordinates Sample.row_no_longitude = false
  ∧ @geometry_builder Decimal.converters
      [[Sample.row_lat_91; Sample.row_no_longitude]]
    = Ok (mkGeoDataFrame crs_4326
            [ mkSpatial Sample.row_lat_91
                (mkPoint Sample.f_110_25 (float_of_Z 91));
              mkSpatial Sample.row_no_longitude
                (mkPoint NaN Sample.f45_5) ]).
Proof. split_and!; vm_compute; reflexivity. Qed.

(** C5 as stated fails: the output file has a layer "mountains"; the
    write goes through and the layer holds the new record, not what it
    held. *)
Lemma C5_counterexample :
  Sample.disk_with_mountains !! output_path ≫= (.!! "mountains")
  = Some Sample.old_layer
  ∧ to_file Sample.gdf_bear output_path "mountains" "utf-8"
      Sample.disk_with_mountains !! output_path ≫= (.!! "mountains")
    = Some (mkLayer crs_4326 "utf-8" (features Sample.gdf_bear))
  ∧ layer_features Sample.old_layer = []
  ∧ length (features Sample.gdf_bear) = 1.
Proof. split_and!; vm_compute; reflexivity. Qed.

(** C6 as stated fails: a file whose second line has 18 fields loads,
    both lines giving a row, and the modification date of the second row
    is missing. *)
Lemma C6_counterexample :
  length Sample.line_bear_18 = 18
  ∧ (λ D, (geonameid <$> compute D, compute D !! 1))
      <$> @load Decimal.converters
            {[ "data/US.txt" :=
                 [[Sample.line_springfield; Sample.line_bear_18]] ]} ["US"]
    = Ok ([Int 5500002; Int 5500001],
          Some (Sample.set_modification_date (Float NaN) Sample.row_bear)).
Proof. split; vm_compute; reflexivity. Qed.


(** With 16 fields the same line makes the load fail, and so does a
    latitude that is not a number. *)
Example load_short_line_fails :
  @load Decimal.converters {[ "data/US.txt" := [[Sample.line_bear_16]] ]} ["US"]
  = Raise ValueError
  ∧ @load Decimal.converters
      {[ "data/US.txt" := [[Sample.line_bear_abc]] ]} ["US"]
    = Raise ValueError.
Proof. split; vm_compute; reflexivity. Qed.

(** C7 at the sample files, each of which has a line: the first
    country, then the other two, and their union in another order. *)
Lemma C7_witness :
  @load Decimal.converters Sample.files ["US"] = Ok Sample.frame_us
  ∧ @load Decimal.converters Sample.files ["MX"; "CA"] = Ok Sample.frame_mx_ca
  ∧ ["CA"; "US"; "MX"] ≡ₚ ["US"] ++ ["MX"; "CA"]
  ∧ (@load Decimal.converters Sample.files (["US"] ++ ["MX"; "CA"])
     = Ok (dd_concat [Sample.frame_us; Sample.frame_mx_ca])
     ∧ (∀ E1 E2 : DaskDataFrame,
          compute (dd_concat [E1; E2]) = compute E1 ++ compute E2)
     ∧ (∀ dfs : list DaskDataFrame,
          compute (dd_concat dfs) = concat (compute <$> dfs))
     ∧ (∀ c df, @dd_read_csv Decimal.converters Sample.files (country_txt c)
                = Ok df →
                @load Decimal.converters Sample.files [c] = Ok df)
     ∧ ∃ D, @load Decimal.converters Sample.files ["CA"; "US"; "MX"] = Ok D
            ∧ compute D ≡ₚ compute Sample.frame_us ++ compute Sample.frame_mx_ca).
Proof.
  assert (@load Decimal.converters Sample.files ["US"] = Ok Sample.frame_us)
    as H1 by (vm_compute; reflexivity).
  assert (@load Decimal.converters Sample.files ["MX"; "CA"]
          = Ok Sample.frame_mx_ca) as H2 by (vm_compute; reflexivity).
  assert (["CA"; "US"; "MX"] ≡ₚ ["US"] ++ ["MX"; "CA"]) as Hperm
    by apply (Permutation_cons_append ["US"; "MX"] "CA").
  split; [exact H1|]. split; [exact H2|]. split; [exact Hperm|].
  exact (@C7_load_concatenates Decimal.converters Sample.files
           ["US"] ["MX"; "CA"] ["CA"; "US"; "MX"]
           Sample.frame_us Sample.frame_mx_ca H1 H2 Hperm).
Defined.



(** A line with a surplus field that is not the first of its block is
    a tokenizer error. *)
Example wide_line_inside_block :
  @pandas_read_csv Decimal.converters [Sample.line_bear; Sample.line_wide]
  = Raise ParserError.
Proof. vm_compute. reflexivity. Qed.

(** Lines of spaces and lines without a character are skipped, also
    before a line with a surplus field, which is then the first line of
    what is parsed; and a file of no byte cannot be read. *)
Example blank_lines_are_skipped :
  (λ D, geonameid <$> compute D)
    <$> @load Decimal.converters
          {[ "data/US.txt" :=
               [[Sample.line_bear; ["   "]; [""]; Sample.line_popo]] ]} ["US"]
  = Ok [Int 5500001; Int 3520001]
  ∧ @pandas_read_csv Decimal.converters [[" "]; Sample.line_wide]
    = Ok [Sample.row_bear]
  ∧ @load Decimal.converters {[ "data/US.txt" := [] ]} ["US"]
    = Raise ValueError.
Proof. split_and!; vm_compute; reflexivity. Qed.

(** * Further properties of the pipeline *)

(** ** The row filter, composed with itself *)

Lemma row_filter_fmap (v : string) (D : DaskDataFrame) :
  row_filter v D = filter (has_class v) <$> D.
Proof.
  unfold row_filter. apply list_fmap_ext. intros _ part _.
  apply getitem_mask_filter.
Qed.

(** X1.  Filtering is idempotent, partition by partition: the filter for
    [v] applied to a frame already filtered for [v] returns that frame,
    and two filters can be applied in either order. *)
Theorem X1_row_filter_idempotent (v w : string) (D : DaskDataFrame) :
  row_filter v (row_filter v D) = row_filter v D
  ∧ row_filter v (row_filter w D) = row_filter w (row_filter v D).
Proof.
  rewrite !row_filter_fmap, <- !list_fmap_compose. split.
  - apply list_fmap_ext. intros _ part _. cbn.
    rewrite list_filter_filter. apply list_filter_iff. tauto.
  - apply list_fmap_ext. intros _ part _. cbn.
    rewrite !list_filter_filter. apply list_filter_iff. tauto.
Qed.

(** X2.  Filters for two different values exclude each other: the
    filter for [v] leaves no row in any partition of a frame filtered for
    another value [w], while the partitions themselves stay, as many as
    the frame had. *)
Theorem X2_row_filter_exclusive (v w : string) (D : DaskDataFrame) :
  v ≠ w →
  row_filter v (row_filter w D) = replicate (length D) []
  ∧ compute (row_filter v (row_filter w D)) = [].
Proof.
  intros Hvw.
  assert (row_filter v (row_filter w D) = replicate (length D) []) as Hempty.
  { rewrite !row_filter_fmap, <- list_fmap_compose.
    induction D as [|part D IH]; [done|].
    rewrite fmap_cons. cbn [length replicate]. rewrite IH. f_equal. cbn.
    rewrite list_filter_filter.
    induction part as [|r part IHp]; [done|].
    rewrite filter_cons_False; [done|].
    unfold has_class. intros [Hv Hw]. congruence. }
  split; [done|]. rewrite Hempty. unfold compute.
  clear. induction (length D) as [|n IH]; [done|]. exact IH.
Qed.

(** ** The shape and the types of a loaded frame *)

Section LoaderShape.
Context `{!Converters}.

Lemma pandas_read_csv_length (b : Block) (part : Partition) :
  pandas_read_csv b = Ok part → length part = length (skip_blank_lines b).
Proof.
  unfold pandas_read_csv. cbn zeta.
  destruct (traverse _ (skip_blank_lines b)) as [lines|] eqn:Hl; cbn; [|done].
  intros Hp. apply traverse_Ok, Forall2_length in Hl, Hp. lia.
Qed.

Lemma dd_read_csv_length (fs : gmap string SourceFile) (path : string)
    (df : DaskDataFrame) :
  dd_read_csv fs path = Ok df →
  length df = length (default [] (fs !! path))
  ∧ length (compute df)
    = length (skip_blank_lines (concat (default [] (fs !! path)))).
Proof.
  intros (blocks & -> & _ & Hdf%traverse_Ok)%dd_read_csv_Ok. cbn.
  unfold compute, skip_blank_lines.
  induction Hdf as [|b part blocks df Hb _ [IH1 IH2]]; [done|].
  cbn [concat length]. rewrite filter_app, !length_app, IH2.
  apply pandas_read_csv_length in Hb. unfold skip_blank_lines in Hb.
  split; lia.
Qed.

(** X3.  The loader neither drops nor adds a row: a loaded frame has
    one partition per block of the source files and one row per line
    that is not blank, over all the files of the countries. *)
Theorem X3_load_shape (fs : gmap string SourceFile) (cs : list string)
    (D : DaskDataFrame) :
  load fs cs = Ok D →
  length D = length (source_blocks fs cs)
  ∧ length (compute D) = length (skip_blank_lines (source_lines fs cs)).
Proof.
  intros (dfs & Hdfs & ->)%load_Ok. unfold dd_list in Hdfs.
  apply traverse_Ok in Hdfs.
  unfold source_lines, source_blocks, dd_concat, compute, skip_blank_lines.
  induction Hdfs as [|c df cs dfs Hc _ [IH1 IH2]]; [done|].
  rewrite fmap_cons. cbn [concat].
  rewrite !concat_app, filter_app, !length_app, IH1, IH2.
  apply dd_read_csv_length in Hc as [H1 H2].
  unfold compute, skip_blank_lines in H2. split; lia.
Qed.

Lemma convert_tokens_conforms (name word : string) (c : cell) :
  convert_tokens name word = Ok c →
  conforms (default dt_object (dtypes !! name)) c.
Proof.
  unfold convert_tokens.
  destruct (default dt_object (dtypes !! name)); cbn.
  - destruct (is_na word); [done|].
    destruct (str_to_int64 word) as [z|]; [|done]. intros [= <-]. by exists z.
  - destruct (is_na word); [intros [= <-]; by eexists|].
    destruct (str_to_double word) as [f|]; [|done].
    intros [= <-]. by exists f.
  - destruct (is_na word) eqn:Hna; intros [= <-]; [by left|].
    right. by exists word.
Qed.

Lemma convert_line_conforms (lead : nat) (words : Line) (r : Row) :
  convert_line lead words = Ok r → row_conforms r.
Proof.
  unfold convert_line, row_conforms.
  destruct (traverse _ _) as [cs|] eqn:Hcs; cbn; [|done].
  destruct (row_of_cells cs) as [r'|] eqn:Hrow; [|done].
  intros [= ->]. apply row_of_cells_Some in Hrow as ->.
  apply traverse_Ok in Hcs. pose proof (Forall2_length _ _ _ Hcs) as Hlen.
  rewrite length_zip in Hlen.
  rewrite <- (fst_zip column_names (drop lead words)) at 1
    by (change (length (cells_of_row r)) with (length column_names) in Hlen;
        lia).
  apply Forall2_fmap_l. eapply Forall2_impl; [exact Hcs|].
  intros [n w] c. apply convert_tokens_conforms.
Qed.

(** The dtypes of the columns, in the order of [column_names]. *)
Lemma declared_dtypes :
  (λ name, default dt_object (dtypes !! name)) <$> column_names
  = [ dt_int; dt_object; dt_object; dt_object; dt_float; dt_float;
      dt_object; dt_object; dt_object; dt_object; dt_object; dt_object;
      dt_object; dt_object; dt_int; dt_float; dt_int; dt_object;
      dt_object ].
Proof. vm_compute. reflexivity. Qed.

Lemma row_conforms_cell (r : Row) (i : nat) (dt : dtype) (c : cell) :
  row_conforms r →
  ((λ name, default dt_object (dtypes !! name)) <$> column_names) !! i
  = Some dt →
  cells_of_row r !! i = Some c →
  conforms dt c.
Proof.
  unfold row_conforms. intros Hr Hdt Hc.
  apply list_lookup_fmap_Some in Hdt as (name & -> & Hname).
  exact (Forall2_lookup_lr _ _ _ i name c Hr Hname Hc).
Qed.

Lemma load_conforms (fs : gmap string SourceFile) (cs : list string)
    (D : DaskDataFrame) :
  load fs cs = Ok D → Forall row_conforms (compute D).
Proof.
  intros (dfs & Hdfs & ->)%load_Ok.
  unfold compute, dd_concat. do 2 apply Forall_concat.
  revert Hdfs. unfold dd_list. apply traverse_Ok_Forall.
  intros c df (blocks & _ & _ & Hdf)%dd_read_csv_Ok. revert Hdf.
  apply traverse_Ok_Forall. intros b part. unfold pandas_read_csv. cbn zeta.
  destruct (traverse _ (skip_blank_lines b)) as [lines|]; cbn; [|done].
  apply traverse_Ok_Forall. intros l r. apply convert_line_conforms.
Qed.

(** X4.  Every row of a loaded frame has the declared dtypes: geonameid,
    population and dem are integers, never missing; latitude, longitude
    and elevation are floats; every other column holds a text that is no
    missing-value marker, or NaN. *)
Theorem X4_load_dtypes (fs : gmap string SourceFile) (cs : list string)
    (D : DaskDataFrame) :
  load fs cs = Ok D →
  Forall (λ r,
    row_conforms r
    ∧ (∃ i p d, geonameid r = Int i ∧ population r = Int p ∧ dem r = Int d)
    ∧ (∃ la lo el, latitude r = Float la ∧ longitude r = Float lo
                   ∧ elevation r = Float el)) (compute D).
Proof.
  intros Hload%load_conforms. eapply Forall_impl; [exact Hload|].
  intros r Hr. split; [done|].
  pose proof (λ i dt c, row_conforms_cell r i dt c Hr) as Hcell.
  rewrite declared_dtypes in Hcell.
  destruct (Hcell 0 dt_int (geonameid r) eq_refl eq_refl) as [i Hi].
  destruct (Hcell 14 dt_int (population r) eq_refl eq_refl) as [p Hp].
  destruct (Hcell 16 dt_int (dem r) eq_refl eq_refl) as [d Hd].
  destruct (Hcell 4 dt_float (latitude r) eq_refl eq_refl) as [la Hla].
  destruct (Hcell 5 dt_float (longitude r) eq_refl eq_refl) as [lo Hlo].
  destruct (Hcell 15 dt_float (elevation r) eq_refl eq_refl) as [el Hel].
  split; [by exists i, p, d | by exists la, lo, el].
Qed.

(** X5.  A filter value that is a missing-value marker selects nothing
    from a loaded frame: a feature-class field that reads "NA" (or any
    other marker) is loaded as NaN, which is equal to no string. *)
Theorem X5_na_marker_never_matches (fs : gmap string SourceFile)
    (cs : list string) (D : DaskDataFrame) (v : string) :
  load fs cs = Ok D → is_na v = true → compute (row_filter v D) = [].
Proof.
  intros Hload%load_conforms Hna. rewrite compute_row_filter.
  induction Hload as [|r rows Hr _ IH]; [done|].
  rewrite filter_cons_False; [done|]. unfold has_class. intros Hv.
  pose proof (λ dt, row_conforms_cell r 6 dt (feature_class r) Hr) as Hcell.
  rewrite declared_dtypes in Hcell.
  destruct (Hcell dt_object eq_refl eq_refl) as [Hnan|(w & Hw & Hnw)].
  - by rewrite Hv in Hnan.
  - rewrite Hv in Hw. injection Hw as <-. by rewrite Hna in Hnw.
Qed.

(** X6.  A country without its file stops everything: the loader fails,
    and with it the pipeline, for any filter value and output disk. *)
Theorem X6_missing_file_fails (fs : gmap string SourceFile)
    (cs : list string) (c v : string) (disk : Disk) :
  c ∈ cs → fs !! country_txt c = None →
  is_error (load fs cs) = true ∧ is_error (pipeline v fs cs disk) = true.
Proof.
  intros Hc Hfs.
  assert (is_error (load fs cs) = true) as Hload.
  { apply (load_country_error fs cs c Hc). unfold dd_read_csv.
    by rewrite Hfs. }
  split; [done|]. unfold pipeline.
  by apply is_error_Raise in Hload as [e ->].
Qed.

(** X7.  A line with more fields than the schema and than the first
    line of its block makes the load fail. *)
Theorem X7_wide_line_fails (fs : gmap string SourceFile) (cs : list string)
    (c : string) (blocks : SourceFile) (b rest : Block) (first l : Line) :
  c ∈ cs → fs !! country_txt c = Some blocks → b ∈ blocks →
  skip_blank_lines b = first :: rest → l ∈ rest →
  length first `max` length column_names < length l →
  is_error (load fs cs) = true.
Proof.
  intros Hc Hfs Hb Hskip Hl Hwide.
  apply (load_country_error fs cs c Hc).
  apply (dd_read_csv_block_error fs _ blocks b Hfs Hb).
  unfold pandas_read_csv. cbn zeta. rewrite Hskip.
  assert (is_error (traverse (end_line (table_width (first :: rest)))
                      (first :: rest)) = true) as Ht.
  { apply (traverse_elem_error _ _ l); [by right|].
    unfold end_line. cbn [table_width]. by rewrite decide_True. }
  by apply is_error_Raise in Ht as [e ->].
Qed.

End LoaderShape.

(** ** The pipeline from the loaded frame to the disk *)

Lemma to_file_to_file (g1 g2 : GeoDataFrame) (f l e1 e2 : string)
    (disk : Disk) :
  to_file g2 f l e2 (to_file g1 f l e1 disk) = to_file g2 f l e2 disk.
Proof.
  unfold to_file. rewrite lookup_insert_eq. cbn.
  by rewrite !insert_insert_eq.
Qed.

Section PipelineEnd.
Context `{!Converters}.

Lemma pipeline_inv (v : string) (fs : gmap string SourceFile)
    (cs : list string) (disk disk' : Disk) :
  pipeline v fs cs disk = Ok disk' →
  ∃ gdf, disk' = to_file gdf output_path "mountains" "utf-8" disk
         ∧ ∀ other, pipeline v fs cs other
                    = Ok (to_file gdf output_path "mountains" "utf-8" other).
Proof.
  unfold pipeline. destruct (load fs cs) as [merged|]; cbn; [|done].
  destruct (geometry_builder (row_filter v merged)) as [gdf|]; cbn; [|done].
  intros [= <-]. by exists gdf.
Qed.

Lemma spatial_records_loaded (rows : list Row) :
  Forall (λ r, is_float (latitude r) = true ∧ is_float (longitude r) = true)
         rows →
  ∃ srs, traverse spatial_record rows = Ok srs
         ∧ attrs <$> srs = rows
         ∧ Forall (λ sr, ∃ x y, longitude (attrs sr) = Float x
                                ∧ latitude (attrs sr) = Float y
                                ∧ geometry sr = mkPoint x y) srs.
Proof.
  induction 1 as [|r rows [Hla Hlo] _ (srs & Hsrs & Hattrs & Hgeo)].
  - by exists [].
  - destruct (latitude r) as [|y|] eqn:Ey; [done| |done].
    destruct (longitude r) as [|x|] eqn:Ex; [done| |done].
    exists (mkSpatial r (mkPoint x y) :: srs). split_and!.
    + assert (spatial_record r = Ok (mkSpatial r (mkPoint x y))) as Hr
        by (unfold spatial_record, point_of_row; by rewrite Ex, Ey).
      cbn [traverse]. by rewrite Hr, Hsrs.
    + rewrite fmap_cons. cbn. by rewrite Hattrs.
    + constructor; [|done]. exists x, y. by cbn.
Qed.

(** X8.  What a run of the pipeline that returns has written: the
    frame was loaded, and the layer "mountains" of the output file holds,
    in the order of the loaded frame, exactly the loaded rows of feature
    class [v], each with the point of its own longitude and latitude,
    under the CRS EPSG:4326 and the encoding utf-8. *)
Theorem X8_pipeline_writes_filtered_rows (v : string)
    (fs : gmap string SourceFile) (cs : list string) (disk disk' : Disk) :
  pipeline v fs cs disk = Ok disk' →
  ∃ merged layer,
    load fs cs = Ok merged
    ∧ disk' !! output_path ≫= (.!! "mountains") = Some layer
    ∧ layer_crs layer = "EPSG:4326"
    ∧ layer_encoding layer = "utf-8"
    ∧ attrs <$> layer_features layer = filter (has_class v) (compute merged)
    ∧ Forall (λ sr, ∃ x y, longitude (attrs sr) = Float x
                           ∧ latitude (attrs sr) = Float y
                           ∧ geometry sr = mkPoint x y)
             (layer_features layer).
Proof.
  rewrite pipeline_rows.
  destruct (load fs cs) as [merged|] eqn:Hload; [|done].
  cbn [fmap result_fmap mbind result_bind].
  pose proof (load_floats _ _ _ Hload) as Hfl.
  destruct (spatial_records_loaded (filter (has_class v) (compute merged)))
    as (srs & Hsrs & Hattrs & Hgeo).
  { apply Forall_forall. intros r [_ Hr]%list_elem_of_filter.
    rewrite Forall_forall in Hfl. by apply Hfl. }
  rewrite Hsrs. cbn. intros [= <-].
  exists merged, (mkLayer crs_4326 "utf-8" srs).
  split_and!; [done| |done..].
  unfold to_file. rewrite lookup_insert_eq. cbn. apply lookup_insert_eq.
Qed.

(** X9.  Running the pipeline again over the same sources changes
    nothing: on the disk its first run has written, the second run
    returns that very disk. *)
Theorem X9_pipeline_rerun (v : string) (fs : gmap string SourceFile)
    (cs : list string) (disk disk' : Disk) :
  pipeline v fs cs disk = Ok disk' → pipeline v fs cs disk' = Ok disk'.
Proof.
  intros (gdf & -> & Hany)%pipeline_inv.
  rewrite Hany. f_equal. apply to_file_to_file.
Qed.

(** X10.  The pipeline writes one layer and touches nothing else: every
    other file of the disk, and every other layer of the output file, is
    after the run what it was before. *)
Theorem X10_pipeline_frame (v : string) (fs : gmap string SourceFile)
    (cs : list string) (disk disk' : Disk) :
  pipeline v fs cs disk = Ok disk' →
  (∀ path, path ≠ output_path → disk' !! path = disk !! path)
  ∧ (∀ other, other ≠ "mountains" →
       disk' !! output_path ≫= (.!! other)
       = disk !! output_path ≫= (.!! other)).
Proof.
  intros (gdf & -> & _)%pipeline_inv. unfold to_file. split.
  - intros path Hpath. by rewrite lookup_insert_ne.
  - intros other Hother. rewrite lookup_insert_eq. cbn.
    rewrite lookup_insert_ne by done. by destruct (disk !! output_path).
Qed.

End PipelineEnd.

(** * Properties of the setup and of the download *)

(** ** Paths *)

Lemma contains_sep_app (a b : string) :
  contains_sep (a +:+ b) = contains_sep a || contains_sep b.
Proof.
  induction a as [|c a IH]; [done|].
  simpl. rewrite IH. apply orb_assoc.
Qed.

Lemma starts_with_sep_contains (p : string) :
  contains_sep p = false → starts_with_sep p = false.
Proof. destruct p; cbn; [done|]. by intros [? _]%orb_false_iff. Qed.

Lemma os_path_basename_no_sep (p : string) :
  contains_sep p = false → os_path_basename p = p.
Proof. destruct p; cbn; [done|]. by intros ->. Qed.

Lemma os_path_basename_app_sep (a p : string) :
  os_path_basename (a +:+ String "/" p) = os_path_basename p.
Proof.
  induction a as [|c a IH]; [done|].
  simpl. rewrite contains_sep_app. simpl. by rewrite !orb_true_r.
Qed.

Lemma os_path_head_no_sep (p : string) :
  contains_sep p = false → os_path_head p = "".
Proof. destruct p; cbn; [done|]. by intros ->. Qed.

Lemma ends_with_sep_app (a b : string) :
  b ≠ "" → ends_with_sep (a +:+ b) = ends_with_sep b.
Proof.
  intros Hb. induction a as [|c a IH]; [done|].
  simpl. rewrite <- IH.
  destruct (a +:+ b) eqn:Hab; [|done].
  destruct a; [done | discriminate].
Qed.

(** The file of a country code without separator, in the data folder. *)
Lemma os_path_join_data (name : string) :
  contains_sep name = false →
  os_path_join data_folder name = "data/" +:+ name.
Proof.
  intros Hname%starts_with_sep_contains. unfold os_path_join.
  by rewrite Hname.
Qed.

Lemma download_filename (country : string) :
  contains_sep country = false →
  os_path_join data_folder (os_path_basename (Setup.archive_url country))
  = "data/" +:+ country +:+ ".zip".
Proof.
  intros Hc.
  assert (contains_sep (country +:+ ".zip") = false) as Hzip
    by (rewrite contains_sep_app, Hc; done).
  change (Setup.archive_url country)
    with ("https://download.geonames.org/export/dump"
          +:+ String "/" (country +:+ ".zip")).
  rewrite os_path_basename_app_sep, (os_path_basename_no_sep _ Hzip).
  by apply os_path_join_data.
Qed.

(** X11.  The cells agree on their paths: for a country code without a
    separator, the file [download] writes the archive to is the file the
    extraction cell opens, [data/<country>.zip], and the file the loader
    reads is [data/<country>.txt]. *)
Theorem X11_paths_agree (country : string) :
  contains_sep country = false →
  os_path_join data_folder (os_path_basename (Setup.archive_url country))
  = Setup.zip_file_path country
  ∧ Setup.zip_file_path country = "data/" +:+ country +:+ ".zip"
  ∧ os_path_join data_folder (country +:+ ".txt") = country_txt country.
Proof.
  intros Hc.
  assert (∀ ext, contains_sep ext = false →
                 os_path_join data_folder (country +:+ ext)
                 = "data/" +:+ country +:+ ext) as Hjoin.
  { intros ext Hext. apply os_path_join_data.
    by rewrite contains_sep_app, Hc, Hext. }
  unfold Setup.zip_file_path. split_and!.
  - by rewrite download_filename, Hjoin.
  - by apply Hjoin.
  - by rewrite Hjoin.
Qed.

(** ** The folders *)

Lemma ensure_folder_top (refused : string → bool) (p : string)
    (fs : Setup.FileSystem) :
  ends_with_sep p = false → os_path_dirname p = "" →
  Setup.ensure_folder refused p fs
  = match fs !! p with
    | Some _ => (fs, None)
    | None => if refused p then (fs, Some Setup.OSError)
              else (<[ p := Setup.Dir ]> fs, None)
    end.
Proof.
  intros Hend Hdir.
  unfold Setup.ensure_folder, Setup.os_mkdir, Setup.os_path_exists,
    Setup.parent_is_dir, Setup.entry.
  rewrite Hend, Hdir. destruct (fs !! p); [done|]. by destruct (refused p).
Qed.

(** Where both folders are there, the cell does nothing. *)
Lemma make_folders_there (refused : string → bool) (fs : Setup.FileSystem) :
  is_Some (fs !! data_folder) → is_Some (fs !! output_folder) →
  Setup.make_folders refused fs = (fs, None).
Proof.
  intros [d Hd] [o Ho]. unfold Setup.make_folders, Setup.seq.
  rewrite (ensure_folder_top refused data_folder), Hd by done.
  by rewrite (ensure_folder_top refused output_folder), Ho by done.
Qed.

(** What the cell leaves, by what it finds and what is refused. *)
Lemma make_folders_run (refused : string → bool) (fs : Setup.FileSystem) :
  Setup.make_folders refused fs
  = match fs !! data_folder with
    | Some _ =>
        match fs !! output_folder with
        | Some _ => (fs, None)
        | None => if refused output_folder then (fs, Some Setup.OSError)
                  else (<[ output_folder := Setup.Dir ]> fs, None)
        end
    | None =>
        if refused data_folder then (fs, Some Setup.OSError)
        else match fs !! output_folder with
             | Some _ => (<[ data_folder := Setup.Dir ]> fs, None)
             | None =>
                 if refused output_folder
                 then (<[ data_folder := Setup.Dir ]> fs, Some Setup.OSError)
                 else (<[ output_folder := Setup.Dir ]>
                         (<[ data_folder := Setup.Dir ]> fs), None)
             end
    end.
Proof.
  unfold Setup.make_folders, Setup.seq.
  rewrite (ensure_folder_top refused data_folder) by done.
  destruct (fs !! data_folder) as [d|] eqn:Hd.
  - by rewrite (ensure_folder_top refused output_folder) by done.
  - destruct (refused data_folder); [done|].
    rewrite (ensure_folder_top refused output_folder) by done.
    rewrite (lookup_insert_ne fs data_folder output_folder) by done.
    destruct (fs !! output_folder); [done|].
    by destruct (refused output_folder).
Qed.

(** X12.  The cell that makes the folders only adds, whatever the file
    system holds and whether or not a [mkdir] is refused: every entry
    there is stays as it is (also a regular file at one of the two paths),
    and no path but [data] and [output] is touched.  It raises only when
    the operating system refuses a [mkdir].  When it has raised nothing,
    both paths name something, a directory where they named nothing
    before, and the cell run again does nothing and raises nothing,
    whatever would be refused then. *)
Theorem X12_make_folders (refused : string → bool) (fs : Setup.FileSystem) :
  fs ⊆ (Setup.make_folders refused fs).1
  ∧ (∀ p, p ≠ data_folder → p ≠ output_folder →
          (Setup.make_folders refused fs).1 !! p = fs !! p)
  ∧ (refused data_folder = false → refused output_folder = false →
     (Setup.make_folders refused fs).2 = None)
  ∧ (∀ fs', Setup.make_folders refused fs = (fs', None) →
       (fs !! data_folder = None → fs' !! data_folder = Some Setup.Dir)
       ∧ (fs !! output_folder = None → fs' !! output_folder = Some Setup.Dir)
       ∧ is_Some (fs' !! data_folder)
       ∧ is_Some (fs' !! output_folder)
       ∧ ∀ refused', Setup.make_folders refused' fs' = (fs', None)).
Proof.
  rewrite make_folders_run.
  assert (∀ fs' : Setup.FileSystem,
            is_Some (fs' !! data_folder) → is_Some (fs' !! output_folder) →
            (fs !! data_folder = None → fs' !! data_folder = Some Setup.Dir) →
            (fs !! output_folder = None →
             fs' !! output_folder = Some Setup.Dir) →
            (fs !! data_folder = None → fs' !! data_folder = Some Setup.Dir)
            ∧ (fs !! output_folder = None →
               fs' !! output_folder = Some Setup.Dir)
            ∧ is_Some (fs' !! data_folder)
            ∧ is_Some (fs' !! output_folder)
            ∧ ∀ refused', Setup.make_folders refused' fs' = (fs', None))
    as Hdone.
  { intros fs' Hd Ho Hd' Ho'. split_and!; [done..|].
    intros refused'. by apply make_folders_there. }
  destruct (fs !! data_folder) as [d|] eqn:Hd;
    [|destruct (refused data_folder) eqn:Rd];
    (destruct (fs !! output_folder) as [o|] eqn:Ho;
      [|destruct (refused output_folder) eqn:Ro]);
    cbn [fst snd]; (split_and!; [..|intros fs' [= <-]; apply Hdone]);
    try done.
  all: try (intros _; apply lookup_insert_eq).
  all: try (by apply insert_subseteq).
  all: try (intros p Hp1 Hp2; by rewrite ?lookup_insert_ne).
  all: try (by rewrite ?lookup_insert_eq, ?lookup_insert_ne,
                 ?lookup_insert_eq by done).
  all: try (etrans; [by apply (insert_subseteq fs data_folder Setup.Dir)|];
            apply insert_subseteq; by rewrite lookup_insert_ne).
  all: try (intros _; rewrite lookup_insert_ne by done;
            apply lookup_insert_eq).
Qed.

(** ** The download *)

Lemma entry_weaken (fs fs' : Setup.FileSystem) (p : string) (n : Setup.node) :
  fs ⊆ fs' → Setup.entry fs p = Some n → Setup.entry fs' p = Some n.
Proof.
  intros Hsub. unfold Setup.entry. destruct (ends_with_sep p).
  - destruct (fs !! rstrip_sep p) as [[|]|] eqn:Hp; [|done..].
    by rewrite (lookup_weaken _ _ _ _ Hp Hsub).
  - intros Hp. exact (lookup_weaken _ _ _ _ Hp Hsub).
Qed.

Lemma os_path_exists_weaken (fs fs' : Setup.FileSystem) (p : string) :
  fs ⊆ fs' → Setup.os_path_exists fs p = true →
  Setup.os_path_exists fs' p = true.
Proof.
  unfold Setup.os_path_exists. intros Hsub.
  destruct (Setup.entry fs p) as [n|] eqn:Hp; [|done].
  by rewrite (entry_weaken _ _ _ _ Hsub Hp).
Qed.

(** One download: nothing there is changes, and after a download that
    has not raised the file exists. *)
Lemma download_step (net : Setup.Network) (url : string)
    (fs : Setup.FileSystem) :
  fs ⊆ (Setup.download net url fs).1
  ∧ ((Setup.download net url fs).2 = None →
     Setup.os_path_exists (Setup.download net url fs).1
       (os_path_join data_folder (os_path_basename url)) = true).
Proof.
  unfold Setup.download. cbn zeta.
  set (filename := os_path_join data_folder (os_path_basename url)).
  destruct (Setup.os_path_exists fs filename) eqn:Hex; [done|].
  unfold Setup.urlretrieve.
  destruct (net url) as [[content|received]|]; [| |done];
    unfold Setup.open_write, Setup.os_path_exists, Setup.entry in *;
    (destruct (ends_with_sep filename) eqn:Hend; [done|]);
    (destruct (fs !! filename) as [n|] eqn:Hf; [done|]);
    (destruct (Setup.parent_is_dir fs filename); [|done]); cbn; split;
    [by apply insert_subseteq | | by apply insert_subseteq | done].
  intros _. by rewrite lookup_insert_eq.
Qed.

(** A download that has not raised has found the file, or has received
    the whole content and written it. *)
Lemma download_inv (net : Setup.Network) (url : string)
    (fs fs1 : Setup.FileSystem) :
  Setup.download net url fs = (fs1, None) →
  (Setup.os_path_exists fs (os_path_join data_folder (os_path_basename url))
   = true ∧ fs1 = fs)
  ∨ (Setup.os_path_exists fs (os_path_join data_folder (os_path_basename url))
     = false
     ∧ ∃ content,
         net url = Some (Setup.Whole content)
         ∧ fs1 = <[ os_path_join data_folder (os_path_basename url)
                    := Setup.File content ]> fs).
Proof.
  unfold Setup.download. cbn zeta.
  set (filename := os_path_join data_folder (os_path_basename url)).
  destruct (Setup.os_path_exists fs filename) eqn:Hex.
  - intros [= <-]. by left.
  - intros Hrun. right. split; [done|]. revert Hrun. unfold Setup.urlretrieve.
    destruct (net url) as [[content|received]|]; [| |done].
    + unfold Setup.open_write.
      destruct (ends_with_sep filename); [done|].
      destruct (Setup.entry fs filename) as [[|]|];
        (destruct (Setup.parent_is_dir fs filename); [|done]) || done;
        intros [= <-]; by exists content.
    + by destruct (Setup.open_write filename received fs) as [fs2 [e|]].
Qed.

Lemma for_each_subseteq {A} (body : A → Setup.Cmd) (l : list A)
    (fs : Setup.FileSystem) :
  (∀ x fs0, fs0 ⊆ (body x fs0).1) → fs ⊆ (Setup.for_each body l fs).1.
Proof.
  intros Hbody. revert fs. induction l as [|x l IH]; intros fs; [done|].
  cbn [Setup.for_each]. unfold Setup.seq.
  pose proof (Hbody x fs) as Hx.
  destruct (body x fs) as [fs1 [e|]]; [done|].
  etrans; [exact Hx | apply IH].
Qed.

Lemma for_each_app {A} (body : A → Setup.Cmd) (l1 l2 : list A)
    (fs : Setup.FileSystem) :
  Setup.for_each body (l1 ++ l2) fs
  = Setup.seq (Setup.for_each body l1) (Setup.for_each body l2) fs.
Proof.
  revert fs. induction l1 as [|x l1 IH]; intros fs; [done|].
  cbn [app Setup.for_each]. unfold Setup.seq in *.
  destruct (body x fs) as [fs1 [e|]]; [done|]. apply IH.
Qed.

(** X13.  The download never changes or removes what is there: after
    the loop over any countries, with any answers of the network and
    whether it has raised or not, every entry the file system had is
    still there, as it was; an archive that exists is not fetched
    again. *)
Theorem X13_download_only_adds (net : Setup.Network) (cs : list string)
    (fs : Setup.FileSystem) :
  fs ⊆ (Setup.download_countries net cs fs).1
  ∧ (∀ url, Setup.os_path_exists fs
              (os_path_join data_folder (os_path_basename url)) = true →
            Setup.download net url fs = (fs, None)).
Proof.
  split.
  - apply for_each_subseteq. intros c fs0. apply download_step.
  - intros url Hex. unfold Setup.download. cbn zeta. by rewrite Hex.
Qed.

Lemma string_length_app (a b : string) :
  String.length (a +:+ b) = String.length a + String.length b.
Proof. induction a as [|c a IH]; [done|]. simpl. by rewrite IH. Qed.

Lemma string_app_inj_r (a b t : string) : a +:+ t = b +:+ t → a = b.
Proof.
  revert b. induction a as [|c a IH]; intros [|c' b] Hab.
  - done.
  - apply (f_equal String.length) in Hab.
    rewrite !string_length_app in Hab. cbn in Hab. lia.
  - apply (f_equal String.length) in Hab.
    rewrite !string_length_app in Hab. cbn in Hab. lia.
  - change (String c (a +:+ t) = String c' (b +:+ t)) in Hab.
    injection Hab as -> Hab. f_equal. by apply IH.
Qed.

(** The archive path of a country code without separator: it has no
    trailing separator, it is neither of the two folders, and it is the
    path of no other country. *)
Lemma zip_file_path_facts (country : string) :
  contains_sep country = false →
  Setup.zip_file_path country = "data/" +:+ (country +:+ ".zip")
  ∧ ends_with_sep (Setup.zip_file_path country) = false
  ∧ Setup.zip_file_path country ≠ data_folder
  ∧ Setup.zip_file_path country ≠ output_folder.
Proof.
  intros Hc.
  assert (contains_sep (country +:+ ".zip") = false) as Hzip
    by (rewrite contains_sep_app, Hc; done).
  assert (Setup.zip_file_path country = "data/" +:+ (country +:+ ".zip"))
    as ->.
  { unfold Setup.zip_file_path. by apply os_path_join_data. }
  split_and!; [done| | |].
  - rewrite ends_with_sep_app by (by destruct country).
    by rewrite ends_with_sep_app.
  - intros Heq. apply (f_equal contains_sep) in Heq.
    rewrite contains_sep_app in Heq. done.
  - intros Heq. apply (f_equal contains_sep) in Heq.
    rewrite contains_sep_app in Heq. done.
Qed.

Lemma zip_file_path_inj (c1 c2 : string) :
  contains_sep c1 = false → contains_sep c2 = false →
  Setup.zip_file_path c1 = Setup.zip_file_path c2 → c1 = c2.
Proof.
  intros (-> & _)%zip_file_path_facts (-> & _)%zip_file_path_facts Heq.
  apply (inj (String.append "data/")) in Heq.
  by apply string_app_inj_r in Heq.
Qed.

(** The archives a download loop that has not raised leaves: the path
    of every country names something, and where it named nothing before
    it names a file that holds the whole content served for that
    country. *)
Lemma download_countries_archives (net : Setup.Network) (cs : list string)
    (fs fs' : Setup.FileSystem) :
  Setup.download_countries net cs fs = (fs', None) →
  (∀ c, c ∈ cs → contains_sep c = false) →
  ∀ c, c ∈ cs →
    is_Some (fs' !! Setup.zip_file_path c)
    ∧ (fs !! Setup.zip_file_path c = None →
       ∃ content,
         net (Setup.archive_url c) = Some (Setup.Whole content)
         ∧ fs' !! Setup.zip_file_path c = Some (Setup.File content)).
Proof.
  unfold Setup.download_countries. revert fs.
  induction cs as [|c0 cs IH]; intros fs Hrun Hcs c Hc;
    [by apply elem_of_nil in Hc|].
  revert Hrun. cbn [Setup.for_each]. unfold Setup.seq.
  destruct (Setup.download net (Setup.archive_url c0) fs) as [fs1 [e|]]
    eqn:Hstep; [done|].
  intros Hrest.
  assert (fs1 ⊆ fs') as Hsub.
  { replace fs' with (Setup.for_each
        (λ country, Setup.download net (Setup.archive_url country)) cs fs1).1
      by (by rewrite Hrest).
    apply for_each_subseteq. intros c1 fs0. apply download_step. }
  assert (contains_sep c0 = false) as Hc0 by (apply Hcs; by left).
  assert (os_path_join data_folder (os_path_basename (Setup.archive_url c0))
          = Setup.zip_file_path c0) as Htarget.
  { rewrite (download_filename _ Hc0).
    by destruct (zip_file_path_facts c0 Hc0) as (-> & _). }
  assert (∀ fs0 : Setup.FileSystem,
            Setup.os_path_exists fs0 (Setup.zip_file_path c0)
            = bool_decide (is_Some (fs0 !! Setup.zip_file_path c0)))
    as Hexists.
  { intros fs0. unfold Setup.os_path_exists, Setup.entry.
    destruct (zip_file_path_facts c0 Hc0) as (_ & -> & _).
    destruct (fs0 !! Setup.zip_file_path c0) as [n|]; symmetry.
    - by apply bool_decide_eq_true.
    - apply bool_decide_eq_false. by intros [? ?]. }
  pose proof (download_step net (Setup.archive_url c0) fs) as [_ Hthere].
  rewrite Hstep, Htarget, Hexists in Hthere. cbn in Hthere.
  specialize (Hthere eq_refl). apply bool_decide_eq_true in Hthere.
  apply download_inv in Hstep. rewrite Htarget, Hexists in Hstep.
  destruct (decide (c = c0)) as [->|Hne].
  - split.
    + destruct Hthere as [n Hn]. exists n.
      exact (lookup_weaken _ _ _ _ Hn Hsub).
    + intros Hnone.
      destruct Hstep as [[Hex _]|(_ & content & Hnet & ->)].
      * apply bool_decide_eq_true in Hex. rewrite Hnone in Hex.
        by destruct Hex.
      * exists content. split; [done|].
        exact (lookup_weaken _ _ _ _ (lookup_insert_eq _ _ _) Hsub).
  - assert (c ∈ cs) as Hc' by (apply elem_of_cons in Hc as [?|?]; done).
    destruct (IH fs1 Hrest (λ c1 Hc1, Hcs c1 (list_elem_of_further _ _ _ Hc1))
                c Hc') as [Hsome Hnew].
    split; [done|]. intros Hnone. apply Hnew.
    destruct Hstep as [[_ ->]|(_ & content & _ & ->)]; [done|].
    rewrite lookup_insert_ne; [done|].
    intros Heq. apply Hne. symmetry.
    apply zip_file_path_inj; [exact Hc0 | exact (Hcs c Hc) | exact Heq].
Qed.

(** X14.  When the folders cell and the download loop have gone through
    for country codes without separator, nothing that was there has
    changed, the archive path of every country, the path the extraction
    cell opens, names something, and where it named nothing before it
    names a file that holds the whole content served for that country.
    An entry already at an archive path, whatever it is, is left and
    nothing is fetched for it. *)
Theorem X14_setup_leaves_archives (refused : string → bool)
    (net : Setup.Network) (cs : list string) (fs fs' : Setup.FileSystem) :
  Setup.seq (Setup.make_folders refused) (Setup.download_countries net cs) fs
  = (fs', None) →
  (∀ c, c ∈ cs → contains_sep c = false) →
  fs ⊆ fs'
  ∧ ∀ c, c ∈ cs →
      is_Some (fs' !! Setup.zip_file_path c)
      ∧ (fs !! Setup.zip_file_path c = None →
         ∃ content,
           net (Setup.archive_url c) = Some (Setup.Whole content)
           ∧ fs' !! Setup.zip_file_path c = Some (Setup.File content))
      ∧ (∀ n, fs !! Setup.zip_file_path c = Some n →
              fs' !! Setup.zip_file_path c = Some n).
Proof.
  unfold Setup.seq at 1.
  destruct (Setup.make_folders refused fs) as [fs0 [e|]] eqn:Hfolders; [done|].
  intros Hrun Hcs.
  assert (fs ⊆ fs0) as Hsub0.
  { replace fs0 with (Setup.make_folders refused fs).1 by (by rewrite Hfolders).
    rewrite make_folders_run.
    destruct (fs !! data_folder) as [d|] eqn:Hd;
      [|destruct (refused data_folder)];
      (destruct (fs !! output_folder) as [o|] eqn:Ho;
        [|destruct (refused output_folder)]);
      cbn [fst]; try done; try (by apply insert_subseteq).
    all: etrans; [by apply (insert_subseteq fs data_folder Setup.Dir)|];
      apply insert_subseteq; by rewrite lookup_insert_ne. }
  assert (∀ p, p ≠ data_folder → p ≠ output_folder → fs0 !! p = fs !! p)
    as Hframe.
  { intros p Hp1 Hp2.
    replace fs0 with (Setup.make_folders refused fs).1 by (by rewrite Hfolders).
    rewrite make_folders_run.
    destruct (fs !! data_folder) as [d|];
      [|destruct (refused data_folder)];
      (destruct (fs !! output_folder) as [o|];
        [|destruct (refused output_folder)]);
      cbn [fst]; by rewrite ?lookup_insert_ne. }
  assert (fs0 ⊆ fs') as Hsub.
  { replace fs' with (Setup.download_countries net cs fs0).1
      by (by rewrite Hrun).
    apply for_each_subseteq. intros c1 fs1. apply download_step. }
  split; [by etrans|]. intros c Hc.
  destruct (download_countries_archives net cs fs0 fs' Hrun Hcs c Hc)
    as [Hsome Hnew].
  destruct (zip_file_path_facts c (Hcs c Hc)) as (_ & _ & Hd & Ho).
  split_and!; [done| |].
  - intros Hnone. apply Hnew. by rewrite Hframe.
  - intros n Hn. apply (lookup_weaken _ _ _ _ Hn). by etrans.
Qed.

(** X15.  A download loop that has gone through need not be run again:
    on the file system it leaves, the loop over the same countries does
    nothing and raises nothing, whatever the network answers, also when
    every request would fail. *)
Theorem X15_download_rerun (net net' : Setup.Network) (cs : list string)
    (fs fs' : Setup.FileSystem) :
  Setup.download_countries net cs fs = (fs', None) →
  Setup.download_countries net' cs fs' = (fs', None).
Proof.
  unfold Setup.download_countries. revert fs.
  induction cs as [|c cs IH]; intros fs; [done|].
  cbn [Setup.for_each]. unfold Setup.seq.
  destruct (download_step net (Setup.archive_url c) fs) as [_ Hex].
  destruct (Setup.download net (Setup.archive_url c) fs) as [fs1 [e|]] eqn:Hc;
    [done|].
  intros Hrest. specialize (Hex eq_refl). cbn in Hex.
  assert (fs1 ⊆ fs') as Hsub.
  { replace fs' with (Setup.for_each
        (λ country, Setup.download net (Setup.archive_url country)) cs fs1).1
      by (by rewrite Hrest).
    apply for_each_subseteq. intros c0 fs0. apply download_step. }
  unfold Setup.download at 1. cbn zeta.
  rewrite (os_path_exists_weaken _ _ _ Hsub Hex).
  exact (IH fs1 Hrest).
Qed.

(** X16.  A failed request ends the loop where it happens: when the
    countries before [c] have gone through, the archive of [c] is not
    there and the request for it fails, the loop raises URLError, the
    countries after [c] are not tried, and the file system is left as the
    countries before [c] left it. *)
Theorem X16_download_stops_at_failure (net : Setup.Network)
    (before after : list string) (c : string) (fs fs1 : Setup.FileSystem) :
  Setup.download_countries net before fs = (fs1, None) →
  Setup.os_path_exists fs1
    (os_path_join data_folder (os_path_basename (Setup.archive_url c)))
  = false →
  net (Setup.archive_url c) = None →
  Setup.download_countries net (before ++ c :: after) fs
  = (fs1, Some Setup.URLError).
Proof.
  intros Hbefore Hex Hnet. unfold Setup.download_countries in *.
  rewrite for_each_app. unfold Setup.seq at 1. rewrite Hbefore.
  cbn [Setup.for_each]. unfold Setup.seq, Setup.download. cbn zeta.
  rewrite Hex. unfold Setup.urlretrieve. by rewrite Hnet.
Qed.

(** * Worked examples of the further properties *)

(** X2 at the first sample frame, filtered for "P" and then for "T". *)
Lemma X2_witness :
  "T" ≠ "P"
  ∧ row_filter "T" (row_filter "P" Sample.frame_us)
    = replicate (length Sample.frame_us) []
  ∧ compute (row_filter "T" (row_filter "P" Sample.frame_us)) = [].
Proof.
  assert ("T" ≠ "P") as Hne by discriminate.
  split; [exact Hne|].
  exact (X2_row_filter_exclusive "T" "P" Sample.frame_us Hne).
Defined.

(** X3 and X4 at the first sample file: two blocks of one line each. *)
Lemma X3_witness :
  @load Decimal.converters Sample.files ["US"] = Ok Sample.frame_us
  ∧ length Sample.frame_us = length (source_blocks Sample.files ["US"])
  ∧ length (compute Sample.frame_us)
    = length (skip_blank_lines (source_lines Sample.files ["US"])).
Proof.
  assert (@load Decimal.converters Sample.files ["US"] = Ok Sample.frame_us)
    as Hload by (vm_compute; reflexivity).
  split; [exact Hload|].
  exact (@X3_load_shape Decimal.converters Sample.files ["US"]
           Sample.frame_us Hload).
Defined.

Lemma X4_witness :
  @load Decimal.converters Sample.files ["US"] = Ok Sample.frame_us
  ∧ Forall (λ r,
      row_conforms r
      ∧ (∃ i p d, geonameid r = Int i ∧ population r = Int p ∧ dem r = Int d)
      ∧ (∃ la lo el, latitude r = Float la ∧ longitude r = Float lo
                     ∧ elevation r = Float el)) (compute Sample.frame_us).
Proof.
  assert (@load Decimal.converters Sample.files ["US"] = Ok Sample.frame_us)
    as Hload by (vm_compute; reflexivity).
  split; [exact Hload|].
  exact (@X4_load_dtypes Decimal.converters Sample.files ["US"]
           Sample.frame_us Hload).
Defined.

(** X5 at the filter value "NA". *)
Lemma X5_witness :
  @load Decimal.converters Sample.files ["US"] = Ok Sample.frame_us
  ∧ is_na "NA" = true
  ∧ compute (row_filter "NA" Sample.frame_us) = [].
Proof.
  assert (@load Decimal.converters Sample.files ["US"] = Ok Sample.frame_us)
    as Hload by (vm_compute; reflexivity).
  assert (is_na "NA" = true) as Hna by (vm_compute; reflexivity).
  split; [exact Hload|]. split; [exact Hna|].
  exact (@X5_na_marker_never_matches Decimal.converters Sample.files ["US"]
           Sample.frame_us "NA" Hload Hna).
Defined.

(** X6 at a country the sample files do not have. *)
Lemma X6_witness :
  "FR" ∈ ["US"; "FR"]
  ∧ Sample.files !! country_txt "FR" = None
  ∧ is_error (@load Decimal.converters Sample.files ["US"; "FR"]) = true
  ∧ is_error (@pipeline Decimal.converters "T" Sample.files ["US"; "FR"] ∅)
    = true.
Proof.
  assert ("FR" ∈ ["US"; "FR"]) as Hin
    by apply list_elem_of_further, list_elem_of_here.
  assert (Sample.files !! country_txt "FR" = None) as Hnone
    by (vm_compute; reflexivity).
  split; [exact Hin|]. split; [exact Hnone|].
  exact (@X6_missing_file_fails Decimal.converters Sample.files ["US"; "FR"]
           "FR" "T" ∅ Hin Hnone).
Defined.

(** X7 at a block whose second line has a surplus field. *)
Lemma X7_witness :
  "US" ∈ ["US"]
  ∧ ({[ "data/US.txt" := [[Sample.line_bear; Sample.line_wide]] ]}
       : gmap string SourceFile) !! country_txt "US"
    = Some [[Sample.line_bear; Sample.line_wide]]
  ∧ [Sample.line_bear; Sample.line_wide]
    ∈ [[Sample.line_bear; Sample.line_wide]]
  ∧ skip_blank_lines [Sample.line_bear; Sample.line_wide]
    = Sample.line_bear :: [Sample.line_wide]
  ∧ Sample.line_wide ∈ [Sample.line_wide]
  ∧ length Sample.line_bear `max` length column_names
    < length Sample.line_wide
  ∧ is_error (@load Decimal.converters
                {[ "data/US.txt" := [[Sample.line_bear; Sample.line_wide]] ]}
                ["US"]) = true.
Proof.
  assert ("US" ∈ ["US"]) as H1 by apply list_elem_of_here.
  assert (({[ "data/US.txt" := [[Sample.line_bear; Sample.line_wide]] ]}
             : gmap string SourceFile) !! country_txt "US"
          = Some [[Sample.line_bear; Sample.line_wide]]) as H2
    by (vm_compute; reflexivity).
  assert ([Sample.line_bear; Sample.line_wide]
          ∈ [[Sample.line_bear; Sample.line_wide]]) as H3
    by apply list_elem_of_here.
  assert (skip_blank_lines [Sample.line_bear; Sample.line_wide]
          = Sample.line_bear :: [Sample.line_wide]) as H4
    by (vm_compute; reflexivity).
  assert (Sample.line_wide ∈ [Sample.line_wide]) as H5
    by apply list_elem_of_here.
  assert (length Sample.line_bear `max` length column_names
          < length Sample.line_wide) as H6 by (cbn; lia).
  split; [exact H1|]. split; [exact H2|]. split; [exact H3|].
  split; [exact H4|]. split; [exact H5|]. split; [exact H6|].
  exact (@X7_wide_line_fails Decimal.converters _ ["US"] "US" _ _ _ _ _
           H1 H2 H3 H4 H5 H6).
Defined.

(** X8, X9 and X10 at the first sample file and the empty disk. *)
Lemma X8_witness :
  @pipeline Decimal.converters "T" Sample.files ["US"] ∅ = Ok Sample.disk_us
  ∧ ∃ merged layer,
      @load Decimal.converters Sample.files ["US"] = Ok merged
      ∧ Sample.disk_us !! output_path ≫= (.!! "mountains") = Some layer
      ∧ layer_crs layer = "EPSG:4326"
      ∧ layer_encoding layer = "utf-8"
      ∧ attrs <$> layer_features layer
        = filter (has_class "T") (compute merged)
      ∧ Forall (λ sr, ∃ x y, longitude (attrs sr) = Float x
                             ∧ latitude (attrs sr) = Float y
                             ∧ geometry sr = mkPoint x y)
               (layer_features layer).
Proof.
  assert (@pipeline Decimal.converters "T" Sample.files ["US"] ∅
          = Ok Sample.disk_us) as Hrun by (vm_compute; reflexivity).
  split; [exact Hrun|].
  exact (@X8_pipeline_writes_filtered_rows Decimal.converters "T" Sample.files
           ["US"] ∅ Sample.disk_us Hrun).
Defined.

Lemma X9_witness :
  @pipeline Decimal.converters "T" Sample.files ["US"] ∅ = Ok Sample.disk_us
  ∧ @pipeline Decimal.converters "T" Sample.files ["US"] Sample.disk_us
    = Ok Sample.disk_us.
Proof.
  assert (@pipeline Decimal.converters "T" Sample.files ["US"] ∅
          = Ok Sample.disk_us) as Hrun by (vm_compute; reflexivity).
  split; [exact Hrun|].
  exact (@X9_pipeline_rerun Decimal.converters "T" Sample.files ["US"] ∅
           Sample.disk_us Hrun).
Defined.

Lemma X10_witness :
  @pipeline Decimal.converters "T" Sample.files ["US"]
    Sample.disk_with_mountains = Ok Sample.disk_us_over
  ∧ (∀ path, path ≠ output_path →
       Sample.disk_us_over !! path = Sample.disk_with_mountains !! path)
  ∧ (∀ other, other ≠ "mountains" →
       Sample.disk_us_over !! output_path ≫= (.!! other)
       = Sample.disk_with_mountains !! output_path ≫= (.!! other)).
Proof.
  assert (@pipeline Decimal.converters "T" Sample.files ["US"]
            Sample.disk_with_mountains = Ok Sample.disk_us_over) as Hrun
    by (vm_compute; reflexivity).
  split; [exact Hrun|].
  exact (@X10_pipeline_frame Decimal.converters "T" Sample.files ["US"]
           Sample.disk_with_mountains Sample.disk_us_over Hrun).
Defined.

(** X11 at the first country. *)
Lemma X11_witness :
  contains_sep "US" = false
  ∧ os_path_join data_folder (os_path_basename (Setup.archive_url "US"))
    = Setup.zip_file_path "US"
  ∧ Setup.zip_file_path "US" = "data/" +:+ "US" +:+ ".zip"
  ∧ os_path_join data_folder ("US" +:+ ".txt") = country_txt "US".
Proof.
  assert (contains_sep "US" = false) as Hc by reflexivity.
  split; [exact Hc|]. exact (X11_paths_agree "US" Hc).
Defined.

(** A country code with a separator breaks the agreement: the archive
    is written under its last component only. *)
Example paths_disagree :
  os_path_join data_folder (os_path_basename (Setup.archive_url "a/b"))
  = "data/b.zip"
  ∧ Setup.zip_file_path "a/b" = "data/a/b.zip".
Proof. split; vm_compute; reflexivity. Qed.

(** A refused [mkdir] ends the folders cell; a transfer that breaks off
    leaves the part received and raises, and the next run of the loop
    takes that file for the archive. *)
Example setup_failures :
  Setup.make_folders (λ _, true) ∅ = (∅, Some Setup.OSError)
  ∧ Setup.download (λ _, Some (Setup.Short "arch")) (Setup.archive_url "US")
      Sample.fs_data
    = (<[ "data/US.zip" := Setup.File "arch" ]> Sample.fs_data,
       Some Setup.URLError)
  ∧ Setup.download Sample.net_all (Setup.archive_url "US")
      (<[ "data/US.zip" := Setup.File "arch" ]> Sample.fs_data)
    = (<[ "data/US.zip" := Setup.File "arch" ]> Sample.fs_data, None).
Proof. split_and!; vm_compute; reflexivity. Qed.

(** X14 from the empty file system, every archive being served and no
    [mkdir] refused. *)
Lemma X14_witness :
  Setup.seq (Setup.make_folders (λ _, false))
    (Setup.download_countries Sample.net_all countries) ∅
  = (Sample.fs_setup, None)
  ∧ (∀ c, c ∈ countries → contains_sep c = false)
  ∧ ∅ ⊆ Sample.fs_setup
  ∧ ∀ c, c ∈ countries →
      is_Some (Sample.fs_setup !! Setup.zip_file_path c)
      ∧ ((∅ : Setup.FileSystem) !! Setup.zip_file_path c = None →
         ∃ content,
           Sample.net_all (Setup.archive_url c) = Some (Setup.Whole content)
           ∧ Sample.fs_setup !! Setup.zip_file_path c
             = Some (Setup.File content))
      ∧ (∀ n, (∅ : Setup.FileSystem) !! Setup.zip_file_path c = Some n →
              Sample.fs_setup !! Setup.zip_file_path c = Some n).
Proof.
  assert (Setup.seq (Setup.make_folders (λ _, false))
            (Setup.download_countries Sample.net_all countries) ∅
          = (Sample.fs_setup, None)) as Hrun by (vm_compute; reflexivity).
  assert (∀ c, c ∈ countries → contains_sep c = false) as Hcs.
  { intros c Hc. unfold countries in Hc.
    rewrite !elem_of_cons, elem_of_nil in Hc.
    destruct Hc as [->|[->|[->|[]]]]; reflexivity. }
  split; [exact Hrun|]. split; [exact Hcs|].
  exact (X14_setup_leaves_archives (λ _, false) Sample.net_all countries ∅
           Sample.fs_setup Hrun Hcs).
Defined.

(** X15: after a download that went through, the loop with a network
    that fails every request. *)
Lemma X15_witness :
  Setup.download_countries Sample.net_all countries Sample.fs_data
  = (Sample.fs_all, None)
  ∧ Setup.download_countries (λ _, None) countries Sample.fs_all
    = (Sample.fs_all, None).
Proof.
  assert (Setup.download_countries Sample.net_all countries Sample.fs_data
          = (Sample.fs_all, None)) as Hrun by (vm_compute; reflexivity).
  split; [exact Hrun|].
  exact (X15_download_rerun Sample.net_all (λ _, None) countries
           Sample.fs_data Sample.fs_all Hrun).
Defined.

(** X16: the archive of the second country is not served. *)
Lemma X16_witness :
  Setup.download_countries Sample.net_us ["US"] Sample.fs_data
  = (Sample.fs_us, None)
  ∧ Setup.os_path_exists Sample.fs_us
      (os_path_join data_folder (os_path_basename (Setup.archive_url "MX")))
    = false
  ∧ Sample.net_us (Setup.archive_url "MX") = None
  ∧ Setup.download_countries Sample.net_us (["US"] ++ "MX" :: ["CA"])
      Sample.fs_data
    = (Sample.fs_us, Some Setup.URLError).
Proof.
  assert (Setup.download_countries Sample.net_us ["US"] Sample.fs_data
          = (Sample.fs_us, None)) as H1 by (vm_compute; reflexivity).
  assert (Setup.os_path_exists Sample.fs_us
            (os_path_join data_folder
               (os_path_basename (Setup.archive_url "MX"))) = false) as H2
    by (vm_compute; reflexivity).
  assert (Sample.net_us (Setup.archive_url "MX") = None) as H3
    by (vm_compute; reflexivity).
  split; [exact H1|]. split; [exact H2|]. split; [exact H3|].
  exact (X16_download_stops_at_failure Sample.net_us ["US"] ["CA"] "MX"
           Sample.fs_data Sample.fs_us H1 H2 H3).
Defined.
